(** * Movie service: a shallow embedding of [services/crud.py],
      [schemas/movies.py] and [routes/movies.py], and its properties. *)

From Stdlib Require Import ZArith Lia.
From Stdlib Require Import Floats.PrimFloat.
From stdpp Require Import base option list sorting gmap strings pretty.

Local Open Scope Z_scope.

(** ** Python values used by the service *)

(** Python's [float] is an IEEE 754 binary64 number.  The service only
    stores and copies such values. *)
Abbreviation float := PrimFloat.float.

(** [datetime.date]: a calendar day of the proleptic Gregorian calendar, held
    by its ordinal ([date.toordinal()]: 0001-01-01 is day 1).  Comparison of
    dates is comparison of ordinals, and adding a [timedelta] adds its days. *)
Module datetime.

Record date := Date { toordinal : Z }.

#[global] Instance date_eq_dec : EqDecision date.
Proof. solve_decision. Defined.

Definition MINORDINAL : Z := 1.
Definition MAXORDINAL : Z := 3652059.

(** The dates Python can build: 0001-01-01 to 9999-12-31. *)
Definition valid (d : date) : Prop :=
  MINORDINAL <= toordinal d <= MAXORDINAL.

Record timedelta := Timedelta { days : Z }.

(** [d + delta]; [None] is Python's [OverflowError]. *)
Definition add (d : date) (delta : timedelta) : option date :=
  let o := toordinal d + days delta in
  if bool_decide (MINORDINAL <= o <= MAXORDINAL) then Some (Date o) else None.

(** [a > b] *)
Definition gt (a b : date) : bool := bool_decide (toordinal b < toordinal a).

(** [_ord2ymd]: ordinal to (year, month, day). *)
Definition DAYS_BEFORE_MONTH (month : Z) : Z :=
  match month with
  | 1 => 0 | 2 => 31 | 3 => 59 | 4 => 90 | 5 => 120 | 6 => 151
  | 7 => 181 | 8 => 212 | 9 => 243 | 10 => 273 | 11 => 304 | 12 => 334
  | _ => 0
  end.

Definition DAYS_IN_MONTH (month : Z) : Z :=
  match month with
  | 1 => 31 | 2 => 28 | 3 => 31 | 4 => 30 | 5 => 31 | 6 => 30
  | 7 => 31 | 8 => 31 | 9 => 30 | 10 => 31 | 11 => 30 | 12 => 31
  | _ => 0
  end.

Definition b2z (b : bool) : Z := if b then 1 else 0.

Definition ord2ymd (n : Z) : Z * Z * Z :=
  let n := n - 1 in
  let n400 := n / 146097 in
  let n := n mod 146097 in
  let year := n400 * 400 + 1 in
  let n100 := n / 36524 in
  let n := n mod 36524 in
  let n4 := n / 1461 in
  let n := n mod 1461 in
  let n1 := n / 365 in
  let n := n mod 365 in
  let year := year + n100 * 100 + n4 * 4 + n1 in
  if (n1 =? 4) || (n100 =? 4) then (year - 1, 12, 31)
  else
    let leapyear := (n1 =? 3) && (negb (n4 =? 24) || (n100 =? 3)) in
    let month := Z.shiftr (n + 50) 5 in
    let preceding :=
      DAYS_BEFORE_MONTH month + b2z ((2 <? month) && leapyear) in
    if n <? preceding then
      let month := month - 1 in
      let preceding :=
        preceding - (DAYS_IN_MONTH month + b2z ((month =? 2) && leapyear)) in
      (year, month, n - preceding + 1)
    else (year, month, n - preceding + 1).

(** ["%0*d"]: a non-negative number, zero-padded to [width] digits. *)
Definition zfill (width : nat) (n : Z) : string :=
  let s := pretty n in
  String.concat "" (replicate (width - String.length s) "0") +:+ s.

(** [date.isoformat()], which is also [str(date)] and what an f-string
    renders. *)
Definition isoformat (d : date) : string :=
  let '(y, m, dd) := ord2ymd (toordinal d) in
  zfill 4 y +:+ "-" +:+ zfill 2 m +:+ "-" +:+ zfill 2 dd.

End datetime.

(** ** Exceptions and results *)

(** The exceptions the service and the schemas can raise. *)
Inductive exn :=
| HTTPException (status_code : Z) (detail : string)
| MultipleResultsFound
| ValueError (msg : string)
| OverflowError (msg : string)
| ZeroDivisionError.

Inductive Result (A : Type) :=
| Ok (a : A)
| Raise (e : exn).
Arguments Ok {A} a.
Arguments Raise {A} e.

(** ** schemas/movies.py *)

Module MovieCreateSchema.

Record t := Build {
  name : string;
  date : datetime.date;
  score : float;
  overview : string;
  status : string;
  budget : float;
  revenue : float;
  country : string;
  genres : list string;
  actors : list string;
  languages : list string;
}.

(** The [date] field validator.  [today] is what [datetime.date.today()]
    returns when the validator runs.  Every [date] object is truthy, so
    [if value:] only tells [None] apart. *)
Definition date_validation (today : datetime.date)
    (value : option datetime.date) : Result (option datetime.date) :=
  match value with
  | Some v =>
      match datetime.add today (datetime.Timedelta 365) with
      | None => Raise (OverflowError "date value out of range")
      | Some max_allowed_date =>
          if datetime.gt v max_allowed_date
          then Raise (ValueError "Date cannot be more than one year in the future")
          else Ok value
      end
  | None => Ok value
  end.

End MovieCreateSchema.

(** The schema of a partial update.  Every field defaults to [None];
    [model_fields_set] is pydantic's record of the fields the payload
    supplied, which [model_dump(exclude_unset=True)] consults. *)
Inductive field := f_name | f_date | f_score | f_overview | f_status
                 | f_budget | f_revenue.

#[global] Instance field_eq_dec : EqDecision field.
Proof. solve_decision. Defined.

Module MovieUpdateSchema.

Record t := Build {
  name : option string;
  date : option datetime.date;
  score : option float;
  overview : option string;
  status : option string;
  budget : option float;
  revenue : option float;
  model_fields_set : list field;
}.

End MovieUpdateSchema.

(** ** database: the tables *)

(** Modelled from the spec: [database/models.py] is not among the sources.
    A movie row has the seven scalar columns that the service assigns (each
    can hold Python's [None]), a reference to its country and the lists of
    its genres, actors and languages, held by the keys of the related rows.
    These lists stand for the rows of the join tables: what they say is which
    related rows a movie is linked to; the order of the keys, and a key that
    is listed twice, are the model's.
    The surrogate key [id] is the key of the row in its table. *)
Module MovieModel.

Record t := Build {
  name : option string;
  date : option datetime.date;
  score : option float;
  overview : option string;
  status : option string;
  budget : option float;
  revenue : option float;
  country : Z;
  genres : list Z;
  actors : list Z;
  languages : list Z;
}.

End MovieModel.

(** Modelled from the spec: genre, actor and language rows have a name. *)
Module GenreModel.
Record t := Build { name : string }.
End GenreModel.

Module ActorModel.
Record t := Build { name : string }.
End ActorModel.

Module LanguageModel.
Record t := Build { name : string }.
End LanguageModel.

(** Modelled from the spec: a country row has a code and an optional name. *)
Module CountryModel.
Record t := Build { code : string; name : option string }.
End CountryModel.

(** A table is a finite map from the primary key to the row. *)
Record Database := {
  movies : gmap Z MovieModel.t;
  genres : gmap Z GenreModel.t;
  actors : gmap Z ActorModel.t;
  languages : gmap Z LanguageModel.t;
  countries : gmap Z CountryModel.t;
}.

Definition empty_database : Database :=
  {| movies := ∅; genres := ∅; actors := ∅; languages := ∅; countries := ∅ |}.

(** A mapped class: where its rows live in the database. *)
Class Table (R : Type) := {
  rows : Database -> gmap Z R;
  set_rows : gmap Z R -> Database -> Database;
}.

#[global] Instance MovieTable : Table MovieModel.t := {|
  rows := movies;
  set_rows t d := {| movies := t; genres := genres d; actors := actors d;
                     languages := languages d; countries := countries d |};
|}.

#[global] Instance GenreTable : Table GenreModel.t := {|
  rows := genres;
  set_rows t d := {| movies := movies d; genres := t; actors := actors d;
                     languages := languages d; countries := countries d |};
|}.

#[global] Instance ActorTable : Table ActorModel.t := {|
  rows := actors;
  set_rows t d := {| movies := movies d; genres := genres d; actors := t;
                     languages := languages d; countries := countries d |};
|}.

#[global] Instance LanguageTable : Table LanguageModel.t := {|
  rows := languages;
  set_rows t d := {| movies := movies d; genres := genres d; actors := actors d;
                     languages := t; countries := countries d |};
|}.

#[global] Instance CountryTable : Table CountryModel.t := {|
  rows := countries;
  set_rows t d := {| movies := movies d; genres := genres d; actors := actors d;
                     languages := languages d; countries := t |};
|}.

(** The column a related model is looked up by ([filter_by(name=...)], or
    [filter_by(code=...)] for a country), and the row the model's
    constructor builds from that one keyword argument. *)
Class NaturalKey (R : Type) `{Table R} := {
  natural_key : R -> string;
  from_key : string -> R;
}.

#[global] Instance GenreKey : NaturalKey GenreModel.t := {|
  natural_key := GenreModel.name;
  from_key k := GenreModel.Build k;
|}.

#[global] Instance ActorKey : NaturalKey ActorModel.t := {|
  natural_key := ActorModel.name;
  from_key k := ActorModel.Build k;
|}.

#[global] Instance LanguageKey : NaturalKey LanguageModel.t := {|
  natural_key := LanguageModel.name;
  from_key k := LanguageModel.Build k;
|}.

#[global] Instance CountryKey : NaturalKey CountryModel.t := {|
  natural_key := CountryModel.code;
  from_key k := CountryModel.Build k None;
|}.

(** Modelled from the spec: the store generates the surrogate key of a new
    row; here it is one more than the greatest key of the table. *)
Definition generate_id {R} (t : gmap Z R) : Z :=
  1 + foldr Z.max 0 (map_to_list t).*1.

(** ** database: the session *)

(** Modelled from the spec: [database.get_db] is not among the sources.  A
    request runs in one session: [database] holds what is committed, [view]
    what the session sees (the committed rows and its own flushed changes).
    [commit] makes the view durable; when the request ends, what was not
    committed is rolled back. *)
Record AsyncSession := {
  database : Database;
  view : Database;
}.

(** An awaitable over a session: it returns or raises, and leaves a session
    state either way. *)
Definition Coroutine (A : Type) : Type :=
  AsyncSession -> Result A * AsyncSession.

#[global] Instance Coroutine_ret : MRet Coroutine :=
  fun A a s => (Ok a, s).

#[global] Instance Coroutine_bind : MBind Coroutine :=
  fun A B k m s =>
    match m s with
    | (Ok a, s') => k a s'
    | (Raise e, s') => (Raise e, s')
    end.

Definition raise {A} (e : exn) : Coroutine A := fun s => (Raise e, s).

(** [await db.execute(select(model).where(p))]: the rows of the view that
    satisfy [p], with their keys. *)
Definition select_where {R} `{Table R} (p : Z * R -> bool)
    : Coroutine (list (Z * R)) :=
  fun s => (Ok (filter (fun r => p r = true) (map_to_list (rows (view s)))), s).

(** [result.scalar_one_or_none()] *)
Definition scalar_one_or_none {A} (result : list A) : Coroutine (option A) :=
  match result with
  | [] => mret None
  | [a] => mret (Some a)
  | _ => raise MultipleResultsFound
  end.

(** [db.add(instance)] followed by the flush that emits its INSERT (a
    [flush], or the one [commit] starts with): the row gets its key. *)
Definition add_flush {R} `{Table R} (instance : R) : Coroutine (Z * R) :=
  fun s =>
    let t := rows (view s) in
    let i := generate_id t in
    (Ok (i, instance),
     {| database := database s; view := set_rows (<[i := instance]> t) (view s) |}).

(** Attribute assignments on a loaded object, as the next flush writes them. *)
Definition flush_update {R} `{Table R} (i : Z) (instance : R) : Coroutine () :=
  fun s =>
    (Ok (),
     {| database := database s;
        view := set_rows (<[i := instance]> (rows (view s))) (view s) |}).

(** [await db.delete(instance)], as the next flush writes it. *)
Definition delete_flush {R} `{Table R} (i : Z) (instance : R) : Coroutine () :=
  fun s =>
    (Ok (),
     {| database := database s;
        view := set_rows (delete i (rows (view s))) (view s) |}).

(** [await db.commit()] *)
Definition commit : Coroutine () :=
  fun s => (Ok (), {| database := view s; view := view s |}).

(** [await db.refresh(instance)]: the instance as the view has it. *)
Definition refresh {R} `{Table R} (instance : Z * R) : Coroutine (Z * R) :=
  fun s => (Ok (instance.1, default instance.2 (rows (view s) !! instance.1)), s).

(** One request: a fresh session on the database, the handler's coroutine,
    and the session closed, which drops what was not committed. *)
Definition request {A} (handler : Coroutine A) (db : Database)
    : Result A * Database :=
  let '(r, s) := handler {| database := db; view := db |} in (r, database s).

(** ** Loaded objects *)

(** A movie object with its relationships loaded ([joinedload],
    [selectinload]): the related rows that its references find.  No
    statement of the service orders a collection, so what a loaded
    collection says is which rows are in it. *)
Module Movie.

Record t := Build {
  id : Z;
  columns : MovieModel.t;
  country : option (Z * CountryModel.t);
  genres : list (Z * GenreModel.t);
  actors : list (Z * ActorModel.t);
  languages : list (Z * LanguageModel.t);
}.

End Movie.

Definition related {R} (t : gmap Z R) (i : Z) : option (Z * R) :=
  (fun r => (i, r)) <$> t !! i.

Definition load_relations (d : Database) (m : Z * MovieModel.t) : Movie.t :=
  {| Movie.id := m.1;
     Movie.columns := m.2;
     Movie.country := related (countries d) (MovieModel.country m.2);
     Movie.genres := omap (related (genres d)) (MovieModel.genres m.2);
     Movie.actors := omap (related (actors d)) (MovieModel.actors m.2);
     Movie.languages := omap (related (languages d)) (MovieModel.languages m.2) |}.

(** The rows a SELECT with the three collections joined in (LEFT OUTER JOIN)
    yields for one movie: one per combination of a genre, an actor and a
    language, and one where a collection is empty.  Each carries the same
    movie object. *)
Definition joined_rows (d : Database) (m : Z * MovieModel.t) : list Movie.t :=
  let o := load_relations d m in
  replicate (Nat.max 1 (length (Movie.genres o))
             * Nat.max 1 (length (Movie.actors o))
             * Nat.max 1 (length (Movie.languages o))) o.

(** [result.unique()]: objects already seen are dropped; a mapped object is
    identified by its primary key. *)
Fixpoint unique (seen : list Z) (result : list Movie.t) : list Movie.t :=
  match result with
  | [] => []
  | o :: result =>
      if bool_decide (Movie.id o ∈ seen) then unique seen result
      else o :: unique (Movie.id o :: seen) result
  end.

(** [order_by(desc(MovieModel.id))] *)
Definition id_desc {R} : relation (Z * R) := fun a b => b.1 <= a.1.

#[global] Instance id_desc_dec {R} : RelDecision (@id_desc R).
Proof. intros a b. unfold id_desc. apply _. Defined.

(** The movie rows by descending id. *)
Definition movies_desc (d : Database) : list (Z * MovieModel.t) :=
  merge_sort id_desc (map_to_list (movies d)).

(** OFFSET and LIMIT on the ordered rows.  A negative [offset] or [limit]
    counts as zero here; the handler lets neither through. *)
Definition offset_limit {A} (offset limit : Z) (l : list A) : list A :=
  take (Z.to_nat limit) (drop (Z.to_nat offset) l).

(** The statement of [get_movies]: movies by descending id, [offset] of them
    skipped, at most [limit] taken, each with its relationships joined in.
    The limit counts movies, not joined rows. *)
Definition select_movies_joined (offset limit : Z) : Coroutine (list Movie.t) :=
  fun s =>
    let d := view s in
    let page := offset_limit offset limit (movies_desc d) in
    (Ok (page ≫= joined_rows d), s).

(** A SELECT of movies by a WHERE clause with the relationships joined in. *)
Definition select_where_joined (p : Z * MovieModel.t -> bool)
    : Coroutine (list Movie.t) :=
  fun s =>
    let d := view s in
    (Ok (filter (fun r => p r = true) (map_to_list (movies d)) ≫= joined_rows d), s).

(** The same with [selectinload]: the relationships come from queries of
    their own, one object per movie row. *)
Definition select_where_selectin (p : Z * MovieModel.t -> bool)
    : Coroutine (list Movie.t) :=
  fun s =>
    let d := view s in
    (Ok (load_relations d <$> filter (fun r => p r = true) (map_to_list (movies d))), s).

(** [select(func.count()).select_from(MovieModel)] and [scalar_one()] *)
Definition select_count : Coroutine Z :=
  fun s => (Ok (Z.of_nat (size (movies (view s)))), s).

(** ** services/crud.py *)

Definition get_obj_count : Coroutine Z :=
  total_items ← select_count;
  mret total_items.

(** The dictionary [get_movies] returns. *)
Module MoviePage.

Record t := Build {
  movies : list Movie.t;
  prev_page : option string;
  next_page : option string;
  total_pages : Z;
  total_items : Z;
}.

End MoviePage.

Definition page_link (page per_page : Z) : string :=
  "/theater/movies/?page=" +:+ pretty page +:+ "&per_page=" +:+ pretty per_page.

Definition get_movies (page per_page : Z) : Coroutine MoviePage.t :=
  result ← select_movies_joined ((page - 1) * per_page) per_page;
  let movies := unique [] result in
  total_items ← get_obj_count;
  if bool_decide (per_page = 0)
  then raise ZeroDivisionError
  else
    let total_pages := (total_items + per_page - 1) `div` per_page in
    let prev_page :=
      if bool_decide (page > 1) then Some (page_link (page - 1) per_page)
      else None in
    let next_page :=
      if bool_decide (page < total_pages) then Some (page_link (page + 1) per_page)
      else None in
    match movies with
    | [] => raise (HTTPException 404 "No movies found.")
    | _ => mret (MoviePage.Build movies prev_page next_page total_pages total_items)
    end.

Definition conflict_detail (movie_data : MovieCreateSchema.t) : string :=
  "A movie with the name '" +:+ MovieCreateSchema.name movie_data +:+ "' "
  +:+ "and release date '"
  +:+ datetime.isoformat (MovieCreateSchema.date movie_data)
  +:+ "' already exists.".

(** The WHERE clause of the uniqueness check. *)
Definition same_name_date (movie_data : MovieCreateSchema.t)
    (r : Z * MovieModel.t) : bool :=
  bool_decide (MovieModel.name r.2 = Some (MovieCreateSchema.name movie_data))
  && bool_decide (MovieModel.date r.2 = Some (MovieCreateSchema.date movie_data)).

Definition name_data_unique_validaton (movie_data : MovieCreateSchema.t)
    : Coroutine () :=
  result ← select_where (same_name_date movie_data);
  existing_movie ← scalar_one_or_none result;
  match existing_movie with
  | Some _ => raise (HTTPException 409 (conflict_detail movie_data))
  | None => mret ()
  end.

Definition get_or_create {R} `{NaturalKey R} (k : string) : Coroutine (Z * R) :=
  result ← select_where (fun r => bool_decide (natural_key r.2 = k));
  instance ← scalar_one_or_none result;
  match instance with
  | Some instance => mret instance
  | None =>
      instance ← add_flush (from_key k);
      instance ← refresh instance;
      mret instance
  end.

Definition create_film (movie_data : MovieCreateSchema.t)
    : Coroutine (option Movie.t) :=
  _ ← name_data_unique_validaton movie_data;
  genres ← mapM (get_or_create (R := GenreModel.t))
                (MovieCreateSchema.genres movie_data);
  actors ← mapM (get_or_create (R := ActorModel.t))
                (MovieCreateSchema.actors movie_data);
  languages ← mapM (get_or_create (R := LanguageModel.t))
                   (MovieCreateSchema.languages movie_data);
  country ← get_or_create (R := CountryModel.t)
                          (MovieCreateSchema.country movie_data);
  new_movie ← add_flush
    {| MovieModel.name := Some (MovieCreateSchema.name movie_data);
       MovieModel.date := Some (MovieCreateSchema.date movie_data);
       MovieModel.score := Some (MovieCreateSchema.score movie_data);
       MovieModel.overview := Some (MovieCreateSchema.overview movie_data);
       MovieModel.status := Some (MovieCreateSchema.status movie_data);
       MovieModel.budget := Some (MovieCreateSchema.budget movie_data);
       MovieModel.revenue := Some (MovieCreateSchema.revenue movie_data);
       MovieModel.country := country.1;
       MovieModel.genres := genres.*1;
       MovieModel.actors := actors.*1;
       MovieModel.languages := languages.*1 |};
  _ ← commit;
  new_movie ← refresh new_movie;
  result ← select_where_selectin (fun r => bool_decide (r.1 = new_movie.1));
  let movie_with_relations := head result in
  mret movie_with_relations.

Definition not_found {A} : Coroutine A :=
  raise (HTTPException 404 "Movie with the given ID was not found.").

Definition get_movie_with_id (movie_id : Z) : Coroutine Movie.t :=
  result ← select_where_joined (fun r => bool_decide (r.1 = movie_id));
  movie ← scalar_one_or_none (unique [] result);
  match movie with
  | None => not_found
  | Some movie => mret movie
  end.

(** What a response carries. *)
Inductive Content :=
| empty_body
| plain_text (text : string)
| detail_json (detail : string)
| movie_json (movie : option Movie.t).

Record Response := {
  status_code : Z;
  content : Content;
}.

Definition HTTP_204_NO_CONTENT : Z := 204.

Definition delete_movie (movie_id : Z) : Coroutine Response :=
  result ← select_where (R := MovieModel.t) (fun r => bool_decide (r.1 = movie_id));
  db_movie ← scalar_one_or_none result;
  match db_movie with
  | None => not_found
  | Some db_movie =>
      _ ← delete_flush db_movie.1 db_movie.2;
      _ ← commit;
      mret {| status_code := HTTP_204_NO_CONTENT; content := empty_body |}
  end.

(** One entry of [movie.model_dump(exclude_unset=True)]: a field name and
    its value. *)
Inductive item :=
| item_name (value : option string)
| item_date (value : option datetime.date)
| item_score (value : option float)
| item_overview (value : option string)
| item_status (value : option string)
| item_budget (value : option float)
| item_revenue (value : option float).

Definition dump_field (movie : MovieUpdateSchema.t) (f : field) : item :=
  match f with
  | f_name => item_name (MovieUpdateSchema.name movie)
  | f_date => item_date (MovieUpdateSchema.date movie)
  | f_score => item_score (MovieUpdateSchema.score movie)
  | f_overview => item_overview (MovieUpdateSchema.overview movie)
  | f_status => item_status (MovieUpdateSchema.status movie)
  | f_budget => item_budget (MovieUpdateSchema.budget movie)
  | f_revenue => item_revenue (MovieUpdateSchema.revenue movie)
  end.

(** The fields of the schema, in the order of their declaration. *)
Definition model_fields : list field :=
  [f_name; f_date; f_score; f_overview; f_status; f_budget; f_revenue].

(** [movie.model_dump(exclude_unset=True)]: the fields that were set, in the
    order of the schema. *)
Definition model_dump_exclude_unset (movie : MovieUpdateSchema.t) : list item :=
  dump_field movie <$>
    filter (fun f => f ∈ MovieUpdateSchema.model_fields_set movie) model_fields.

(** [setattr(db_movie, key, value)] *)
Definition setattr (db_movie : MovieModel.t) (kv : item) : MovieModel.t :=
  let '(MovieModel.Build name date score overview status budget revenue
          country genres actors languages) := db_movie in
  match kv with
  | item_name v =>
      MovieModel.Build v date score overview status budget revenue
        country genres actors languages
  | item_date v =>
      MovieModel.Build name v score overview status budget revenue
        country genres actors languages
  | item_score v =>
      MovieModel.Build name date v overview status budget revenue
        country genres actors languages
  | item_overview v =>
      MovieModel.Build name date score v status budget revenue
        country genres actors languages
  | item_status v =>
      MovieModel.Build name date score overview v budget revenue
        country genres actors languages
  | item_budget v =>
      MovieModel.Build name date score overview status v revenue
        country genres actors languages
  | item_revenue v =>
      MovieModel.Build name date score overview status budget v
        country genres actors languages
  end.

Definition update_movie (movie_id : Z) (movie : MovieUpdateSchema.t)
    : Coroutine (Z * MovieModel.t) :=
  result ← select_where (R := MovieModel.t) (fun r => bool_decide (r.1 = movie_id));
  db_movie ← scalar_one_or_none result;
  match db_movie with
  | None => not_found
  | Some db_movie =>
      let data := model_dump_exclude_unset movie in
      let db_movie := (db_movie.1, foldl setattr db_movie.2 data) in
      _ ← flush_update db_movie.1 db_movie.2;
      _ ← commit;
      db_movie ← refresh db_movie;
      mret db_movie
  end.

(** ** routes/movies.py *)

(** What the framework answers when a handler raises: an [HTTPException]
    becomes a response with its status code and detail, anything else a
    server error. *)
Definition exception_response (e : exn) : Response :=
  match e with
  | HTTPException status_code detail =>
      {| status_code := status_code; content := detail_json detail |}
  | _ => {| status_code := 500; content := plain_text "Internal Server Error" |}
  end.

Definition respond (r : Result Response * Database) : Response * Database :=
  match r with
  | (Ok response, db) => (response, db)
  | (Raise e, db) => (exception_response e, db)
  end.

Definition delete_movie_endpoint (movie_id : Z) (db : Database)
    : Response * Database :=
  respond (request (delete_movie movie_id) db).

Definition update_movie_endpoint (movie_id : Z) (movie_data : MovieUpdateSchema.t)
    (db : Database) : Response * Database :=
  respond (request
    (_ ← update_movie movie_id movie_data;
     mret {| status_code := 200;
             content := detail_json "Movie updated successfully." |}) db).

(** The created movie is serialized by the response model of the route. *)
Definition create_movies (movie_data : MovieCreateSchema.t) (db : Database)
    : Response * Database :=
  respond (request
    (result ← create_film movie_data;
     mret {| status_code := 201; content := movie_json result |}) db).

(** ** Histories *)

(** The requests that write, and the databases they lead to from the empty
    one. *)
Inductive operation :=
| POST_movies (movie_data : MovieCreateSchema.t)
| PATCH_movie (movie_id : Z) (movie_data : MovieUpdateSchema.t)
| DELETE_movie (movie_id : Z).

Definition perform (db : Database) (op : operation) : Database :=
  match op with
  | POST_movies movie_data => (create_movies movie_data db).2
  | PATCH_movie movie_id movie_data => (update_movie_endpoint movie_id movie_data db).2
  | DELETE_movie movie_id => (delete_movie_endpoint movie_id db).2
  end.

Definition reachable (db : Database) : Prop :=
  exists ops, db = foldl perform empty_database ops.

(** ** Reading a movie row by field *)

(** The field an item assigns, [getattr(db_movie, key)] and whether a value
    is [None]. *)
Definition item_field (kv : item) : field :=
  match kv with
  | item_name _ => f_name
  | item_date _ => f_date
  | item_score _ => f_score
  | item_overview _ => f_overview
  | item_status _ => f_status
  | item_budget _ => f_budget
  | item_revenue _ => f_revenue
  end.

Definition getattr (db_movie : MovieModel.t) (f : field) : item :=
  match f with
  | f_name => item_name (MovieModel.name db_movie)
  | f_date => item_date (MovieModel.date db_movie)
  | f_score => item_score (MovieModel.score db_movie)
  | f_overview => item_overview (MovieModel.overview db_movie)
  | f_status => item_status (MovieModel.status db_movie)
  | f_budget => item_budget (MovieModel.budget db_movie)
  | f_revenue => item_revenue (MovieModel.revenue db_movie)
  end.

Definition is_null (kv : item) : Prop :=
  match kv with
  | item_name v | item_overview v | item_status v => v = None
  | item_date v => v = None
  | item_score v | item_budget v | item_revenue v => v = None
  end.

(** The relationships of a movie row. *)
Definition relations (r : MovieModel.t) : Z * list Z * list Z * list Z :=
  (MovieModel.country r, MovieModel.genres r, MovieModel.actors r,
   MovieModel.languages r).

(** ** Tables and their natural keys *)

(** The laws of a table accessor. *)
Class TableLaws (R : Type) `{Table R} := {
  rows_set_rows t d : rows (set_rows t d) = t;
  set_rows_rows d : set_rows (rows d) d = d;
  set_rows_set_rows t t' d : set_rows t (set_rows t' d) = set_rows t d;
}.

(** The row built from a key has that key. *)
Class NaturalKeyLaws (R : Type) `{NaturalKey R} := {
  natural_key_from_key k : natural_key (from_key k) = k;
}.

(** No two rows of the table have the same natural key. *)
Definition unique_keys {R} `{NaturalKey R} (t : gmap Z R) : Prop :=
  forall i j r r',
    t !! i = Some r -> t !! j = Some r' -> natural_key r = natural_key r' -> i = j.

(** The instance is a row of the table and has the natural key [k]. *)
Definition row_for {R} `{NaturalKey R} (t : gmap Z R) (k : string)
    (instance : Z * R) : Prop :=
  t !! instance.1 = Some instance.2 /\ natural_key instance.2 = k.

(** The table has exactly one row with the natural key [k]: [instance]. *)
Definition only_row_for {R} `{NaturalKey R} (t : gmap Z R) (k : string)
    (instance : Z * R) : Prop :=
  row_for t k instance /\ forall other, row_for t k other -> other = instance.

(** The table [t'] has the rows of [t], and what held of the natural keys of
    [t] holds of those of [t']. *)
Definition keeps {R} `{NaturalKey R} (t t' : gmap Z R) : Prop :=
  t ⊆ t'
  /\ (forall k x, only_row_for t k x -> only_row_for t' k x)
  /\ (unique_keys t -> unique_keys t').

(** The natural keys of the four related tables are unique. *)
Record keys_ok (d : Database) : Prop := {
  genres_ok : unique_keys (genres d);
  actors_ok : unique_keys (actors d);
  languages_ok : unique_keys (languages d);
  countries_ok : unique_keys (countries d);
}.

(** The row [create_film] builds from the input and the resolved relations. *)
Definition new_row (movie_data : MovieCreateSchema.t)
    (country : Z * CountryModel.t) (genres : list (Z * GenreModel.t))
    (actors : list (Z * ActorModel.t)) (languages : list (Z * LanguageModel.t))
    : MovieModel.t :=
  {| MovieModel.name := Some (MovieCreateSchema.name movie_data);
     MovieModel.date := Some (MovieCreateSchema.date movie_data);
     MovieModel.score := Some (MovieCreateSchema.score movie_data);
     MovieModel.overview := Some (MovieCreateSchema.overview movie_data);
     MovieModel.status := Some (MovieCreateSchema.status movie_data);
     MovieModel.budget := Some (MovieCreateSchema.budget movie_data);
     MovieModel.revenue := Some (MovieCreateSchema.revenue movie_data);
     MovieModel.country := country.1;
     MovieModel.genres := genres.*1;
     MovieModel.actors := actors.*1;
     MovieModel.languages := languages.*1 |}.

(** What a successful create leaves behind: the movie row under a new key,
    and related tables that keep what they had and hold, for every name of
    the input, exactly one row, which the movie references. *)
Definition created (movie_data : MovieCreateSchema.t) (db db' : Database)
    (m : Movie.t) : Prop :=
  exists gs acs ls c,
    let row := new_row movie_data c gs acs ls in
    let movie_id := generate_id (movies db) in
    m = load_relations db' (movie_id, row)
    /\ movies db' = <[movie_id := row]> (movies db)
    /\ (keeps (genres db) (genres db')
        /\ Forall2 (only_row_for (genres db'))
             (MovieCreateSchema.genres movie_data) gs)
    /\ (keeps (actors db) (actors db')
        /\ Forall2 (only_row_for (actors db'))
             (MovieCreateSchema.actors movie_data) acs)
    /\ (keeps (languages db) (languages db')
        /\ Forall2 (only_row_for (languages db'))
             (MovieCreateSchema.languages movie_data) ls)
    /\ (keeps (countries db) (countries db')
        /\ only_row_for (countries db') (MovieCreateSchema.country movie_data) c).

(** Every write keeps the related rows in place. *)
Definition extends (db db' : Database) : Prop :=
  keeps (genres db) (genres db') /\ keeps (actors db) (actors db')
  /\ keeps (languages db) (languages db') /\ keeps (countries db) (countries db').

(** Every reference of a movie row finds a row of the related table. *)
Definition references_ok (d : Database) : Prop :=
  forall i r, movies d !! i = Some r ->
    is_Some (countries d !! MovieModel.country r)
    /\ (forall g, g ∈ MovieModel.genres r -> is_Some (genres d !! g))
    /\ (forall a, a ∈ MovieModel.actors r -> is_Some (actors d !! a))
    /\ (forall l, l ∈ MovieModel.languages r -> is_Some (languages d !! l)).

(** No two movie rows have the same name and the same date. *)
Definition name_date_unique (d : Database) : Prop :=
  forall i j r r' name date,
    movies d !! i = Some r -> movies d !! j = Some r' ->
    MovieModel.name r = Some name -> MovieModel.date r = Some date ->
    MovieModel.name r' = Some name -> MovieModel.date r' = Some date ->
    i = j.

(** Two loaded objects show the same movie: the same id, the same seven
    values, the same country, and the same genres, actors and languages,
    in whatever order and however often each of them is listed. *)
Definition same_movie (m m' : Movie.t) : Prop :=
  Movie.id m = Movie.id m'
  /\ (forall f, getattr (Movie.columns m) f = getattr (Movie.columns m') f)
  /\ Movie.country m = Movie.country m'
  /\ (forall x, x ∈ Movie.genres m <-> x ∈ Movie.genres m')
  /\ (forall x, x ∈ Movie.actors m <-> x ∈ Movie.actors m')
  /\ (forall x, x ∈ Movie.languages m <-> x ∈ Movie.languages m').

(** The movies of a page of the list, and none when the list fails. *)
Definition page_movies (db : Database) (per_page page : Z) : list Movie.t :=
  match (request (get_movies page per_page) db).1 with
  | Ok r => MoviePage.movies r
  | Raise _ => []
  end.

(** The page numbers 1, ..., n. *)
Definition page_numbers (n : Z) : list Z :=
  Z.of_nat <$> seq 1 (Z.to_nat n).

(** ** Sample data *)

Definition dune : MovieCreateSchema.t :=
  {| MovieCreateSchema.name := "Dune";
     MovieCreateSchema.date := datetime.Date 739252;
     MovieCreateSchema.score := 85%float;
     MovieCreateSchema.overview := "...";
     MovieCreateSchema.status := "Released";
     MovieCreateSchema.budget := 100%float;
     MovieCreateSchema.revenue := 400%float;
     MovieCreateSchema.country := "US";
     MovieCreateSchema.genres := ["Sci-Fi"];
     MovieCreateSchema.actors := ["A"];
     MovieCreateSchema.languages := ["English"] |}.

Definition arrival : MovieCreateSchema.t :=
  {| MovieCreateSchema.name := "Arrival";
     MovieCreateSchema.date := datetime.Date 739252;
     MovieCreateSchema.score := 79.5%float;
     MovieCreateSchema.overview := "Twelve ships";
     MovieCreateSchema.status := "Released";
     MovieCreateSchema.budget := 47%float;
     MovieCreateSchema.revenue := 203%float;
     MovieCreateSchema.country := "US";
     MovieCreateSchema.genres := ["Drama"; "Sci-Fi"];
     MovieCreateSchema.actors := ["B"; "A"];
     MovieCreateSchema.languages := ["English"; "Heptapod"] |}.

(** The database after [dune] was created in an empty one, and after
    [arrival] was created next. *)
Definition db_dune : Database := (request (create_film dune) empty_database).2.
Definition db_two : Database := (request (create_film arrival) db_dune).2.

(** The two movies as the creates return them. *)
Definition movie_dune : Movie.t :=
  {| Movie.id := 1;
     Movie.columns :=
       MovieModel.Build (Some "Dune") (Some (datetime.Date 739252))
         (Some 85%float) (Some "...") (Some "Released")
         (Some 100%float) (Some 400%float) 1 [1] [1] [1];
     Movie.country := Some (1, CountryModel.Build "US" None);
     Movie.genres := [(1, GenreModel.Build "Sci-Fi")];
     Movie.actors := [(1, ActorModel.Build "A")];
     Movie.languages := [(1, LanguageModel.Build "English")] |}.

Definition movie_arrival : Movie.t :=
  {| Movie.id := 2;
     Movie.columns :=
       MovieModel.Build (Some "Arrival") (Some (datetime.Date 739252))
         (Some 79.5%float) (Some "Twelve ships") (Some "Released")
         (Some 47%float) (Some 203%float) 1 [2; 1] [2; 1] [1; 2];
     Movie.country := Some (1, CountryModel.Build "US" None);
     Movie.genres := [(2, GenreModel.Build "Drama"); (1, GenreModel.Build "Sci-Fi")];
     Movie.actors := [(2, ActorModel.Build "B"); (1, ActorModel.Build "A")];
     Movie.languages :=
       [(1, LanguageModel.Build "English"); (2, LanguageModel.Build "Heptapod")] |}.

(** The second page of [db_two] with one movie a page. *)
Definition second_page : MoviePage.t :=
  {| MoviePage.movies := [movie_dune];
     MoviePage.prev_page := Some "/theater/movies/?page=1&per_page=1";
     MoviePage.next_page := None;
     MoviePage.total_pages := 2;
     MoviePage.total_items := 2 |}.

(** The payload of a PATCH with the body [{"date": null}]. *)
Definition date_null : MovieUpdateSchema.t :=
  {| MovieUpdateSchema.name := None;
     MovieUpdateSchema.date := None;
     MovieUpdateSchema.score := None;
     MovieUpdateSchema.overview := None;
     MovieUpdateSchema.status := None;
     MovieUpdateSchema.budget := None;
     MovieUpdateSchema.revenue := None;
     MovieUpdateSchema.model_fields_set := [f_date] |}.

(** A PATCH that renames a movie. *)
Definition rename (name : string) : MovieUpdateSchema.t :=
  {| MovieUpdateSchema.name := Some name;
     MovieUpdateSchema.date := None;
     MovieUpdateSchema.score := None;
     MovieUpdateSchema.overview := None;
     MovieUpdateSchema.status := None;
     MovieUpdateSchema.budget := None;
     MovieUpdateSchema.revenue := None;
     MovieUpdateSchema.model_fields_set := [f_name] |}.

(** The database after the second movie of [db_two] was renamed to the name
    of the first: two rows with the same name and date. *)
Definition db_same : Database :=
  (update_movie_endpoint 2 (rename "Dune") db_two).2.

(** A database with the country code US twice, as data loaded from
    elsewhere can have it. *)
Definition db_two_us : Database :=
  set_rows (<[2 := CountryModel.Build "US" (Some "United States")]>
              (countries db_dune)) db_dune.

(** ** Dates *)

Example isoformat_2025_01_01 :
  datetime.isoformat (datetime.Date 739252) = "2025-01-01".
Proof. vm_compute. reflexivity. Qed.

Example isoformat_2024_02_29 :
  datetime.isoformat (datetime.Date 738945) = "2024-02-29".
Proof. vm_compute. reflexivity. Qed.

Example isoformat_max :
  datetime.isoformat (datetime.Date datetime.MAXORDINAL) = "9999-12-31".
Proof. vm_compute. reflexivity. Qed.

Example isoformat_min :
  datetime.isoformat (datetime.Date datetime.MINORDINAL) = "0001-01-01".
Proof. vm_compute. reflexivity. Qed.

Example isoformat_end_of_century :
  datetime.isoformat (datetime.Date 36524) = "0100-12-31".
Proof. vm_compute. reflexivity. Qed.

Example isoformat_end_of_cycle :
  datetime.isoformat (datetime.Date 146097) = "0400-12-31"
  /\ datetime.isoformat (datetime.Date 146098) = "0401-01-01".
Proof. vm_compute. split; reflexivity. Qed.

(** ** Properties of the schemas *)

(** C8: the release-date validator raises its [ValueError] (which the
    framework reports as a 422 validation error) exactly when the date is
    strictly later than today + 365 days; the date exactly 365 days ahead is
    accepted, and so is every earlier one as long as today + 365 days is
    itself a date. *)
Theorem date_validation_one_year (today value : datetime.date) :
  datetime.valid today -> datetime.valid value ->
  (MovieCreateSchema.date_validation today (Some value)
     = Raise (ValueError "Date cannot be more than one year in the future")
   <-> datetime.toordinal today + 365 < datetime.toordinal value)
  /\ (datetime.toordinal value = datetime.toordinal today + 365 ->
      MovieCreateSchema.date_validation today (Some value) = Ok (Some value))
  /\ (datetime.toordinal today + 365 <= datetime.MAXORDINAL ->
      (MovieCreateSchema.date_validation today (Some value) = Ok (Some value)
       <-> datetime.toordinal value <= datetime.toordinal today + 365)).
Proof.
  intros Ht Hv. unfold datetime.valid in *.
  unfold MovieCreateSchema.date_validation, datetime.add, datetime.gt.
  cbn [datetime.toordinal datetime.days].
  split; [|split].
  - case_bool_decide as Hr; cbn [datetime.toordinal].
    + case_bool_decide; split; intros; (done || lia).
    + split; [done | lia].
  - intros E. rewrite bool_decide_eq_true_2 by lia.
    cbn [datetime.toordinal]. by rewrite bool_decide_eq_false_2 by lia.
  - intros Hmax. rewrite bool_decide_eq_true_2 by lia.
    cbn [datetime.toordinal]. case_bool_decide; split; intros; (done || lia).
Qed.

Lemma date_validation_one_year_witness :
  (MovieCreateSchema.date_validation (datetime.Date 739252)
       (Some (datetime.Date 739618))
     = Raise (ValueError "Date cannot be more than one year in the future")
   <-> 739252 + 365 < 739618)
  /\ (739617 = 739252 + 365 ->
      MovieCreateSchema.date_validation (datetime.Date 739252)
        (Some (datetime.Date 739617)) = Ok (Some (datetime.Date 739617))).
Proof.
  split.
  - apply (date_validation_one_year (datetime.Date 739252) (datetime.Date 739618));
      unfold datetime.valid, datetime.MINORDINAL, datetime.MAXORDINAL; simpl; lia.
  - apply (date_validation_one_year (datetime.Date 739252) (datetime.Date 739617));
      unfold datetime.valid, datetime.MINORDINAL, datetime.MAXORDINAL; simpl; lia.
Defined.

(** ** Running coroutines *)

Lemma bind_Ok {A B} (m : Coroutine A) (k : A -> Coroutine B) s a s' :
  m s = (Ok a, s') -> (m ≫= k) s = k a s'.
Proof. intros E. unfold mbind, Coroutine_bind. by rewrite E. Qed.

Lemma bind_Raise {A B} (m : Coroutine A) (k : A -> Coroutine B) s e s' :
  m s = (Raise e, s') -> (m ≫= k) s = (Raise e, s').
Proof. intros E. unfold mbind, Coroutine_bind. by rewrite E. Qed.

(** ** Tables *)

#[global] Instance MovieTableLaws : TableLaws MovieModel.t.
Proof. split; intros; try destruct d; reflexivity. Qed.
#[global] Instance GenreTableLaws : TableLaws GenreModel.t.
Proof. split; intros; try destruct d; reflexivity. Qed.
#[global] Instance ActorTableLaws : TableLaws ActorModel.t.
Proof. split; intros; try destruct d; reflexivity. Qed.
#[global] Instance LanguageTableLaws : TableLaws LanguageModel.t.
Proof. split; intros; try destruct d; reflexivity. Qed.
#[global] Instance CountryTableLaws : TableLaws CountryModel.t.
Proof. split; intros; try destruct d; reflexivity. Qed.

(** The generated key is not in use. *)
Lemma foldr_max_ge (l : list Z) k : k ∈ l -> k <= foldr Z.max 0 l.
Proof.
  induction l as [|x l IH]; [by intros ?%elem_of_nil|].
  intros [->|Hk]%elem_of_cons; simpl; [lia|]. specialize (IH Hk). lia.
Qed.

Lemma generate_id_fresh {R} (t : gmap Z R) : t !! generate_id t = None.
Proof.
  destruct (t !! generate_id t) as [r|] eqn:E; [|done].
  apply elem_of_map_to_list in E.
  assert (generate_id t ∈ (map_to_list t).*1) as Hin.
  { apply list_elem_of_fmap. by exists (generate_id t, r). }
  apply foldr_max_ge in Hin. unfold generate_id in Hin. lia.
Qed.

(** A WHERE clause on the primary key finds the row of that key, if any. *)
Lemma filter_key_NoDup {R} (l : list (Z * R)) (k : Z) :
  NoDup l.*1 ->
  (k ∉ l.*1 -> filter (fun r => bool_decide (r.1 = k) = true) l = [])
  /\ (forall v, (k, v) ∈ l ->
        filter (fun r => bool_decide (r.1 = k) = true) l = [(k, v)]).
Proof.
  induction l as [|[i r] l IH]; intros Hnd.
  { split; [done|]. by intros v ?%elem_of_nil. }
  rewrite fmap_cons in Hnd. apply NoDup_cons in Hnd as [Hi Hnd].
  destruct (IH Hnd) as [IH1 IH2]. split.
  - intros Hk. rewrite fmap_cons, not_elem_of_cons in Hk. destruct Hk as [Hne Hk].
    rewrite filter_cons_False; [by apply IH1|].
    rewrite bool_decide_eq_true. simpl. intros ->. by apply Hne.
  - intros v [Heq|Hin]%elem_of_cons.
    + inversion Heq; subst i r.
      rewrite filter_cons_True by (by rewrite bool_decide_eq_true).
      rewrite IH1; [done|]. exact Hi.
    + assert (i <> k) as Hne.
      { intros ->. apply Hi. apply list_elem_of_fmap. by exists (k, v). }
      rewrite filter_cons_False by (by rewrite bool_decide_eq_true).
      by apply IH2.
Qed.

Lemma select_by_id {R} (t : gmap Z R) (k : Z) :
  filter (fun r => bool_decide (r.1 = k) = true) (map_to_list t)
  = match t !! k with Some v => [(k, v)] | None => [] end.
Proof.
  destruct (filter_key_NoDup (map_to_list t) k (NoDup_fst_map_to_list t))
    as [H1 H2].
  destruct (t !! k) as [v|] eqn:E.
  - apply H2. by apply elem_of_map_to_list.
  - apply H1. intros (x & Hx & Hin)%list_elem_of_fmap. destruct x as [i r].
    simpl in Hx. subst i. apply elem_of_map_to_list in Hin. congruence.
Qed.

(** ** What the operations on one movie compute *)

Ltac run_coroutine :=
  unfold mbind, Coroutine_bind, mret, Coroutine_ret, select_where,
    select_where_joined, select_where_selectin, not_found, raise; simpl.

Lemma delete_movie_run (movie_id : Z) (s : AsyncSession) :
  delete_movie movie_id s =
  match movies (view s) !! movie_id with
  | None => (Raise (HTTPException 404 "Movie with the given ID was not found."), s)
  | Some r =>
      let d := set_rows (delete movie_id (movies (view s))) (view s) in
      (Ok {| status_code := 204; content := empty_body |},
       {| database := d; view := d |})
  end.
Proof.
  unfold delete_movie. run_coroutine. rewrite select_by_id.
  by destruct (movies (view s) !! movie_id).
Qed.

Lemma update_movie_run (movie_id : Z) (movie : MovieUpdateSchema.t)
    (s : AsyncSession) :
  update_movie movie_id movie s =
  match movies (view s) !! movie_id with
  | None => (Raise (HTTPException 404 "Movie with the given ID was not found."), s)
  | Some r =>
      let r' := foldl setattr r (model_dump_exclude_unset movie) in
      let d := set_rows (<[movie_id := r']> (movies (view s))) (view s) in
      (Ok (movie_id, r'), {| database := d; view := d |})
  end.
Proof.
  unfold update_movie. run_coroutine. rewrite select_by_id.
  destruct (movies (view s) !! movie_id) as [r|]; [|done].
  simpl. unfold refresh. simpl. by rewrite lookup_insert_eq.
Qed.

Lemma unique_replicate seen n (o : Movie.t) rest :
  Movie.id o ∈ seen ->
  unique seen (replicate n o ++ rest) = unique seen rest.
Proof.
  intros Hin. induction n as [|n IH]; [done|].
  simpl. by rewrite bool_decide_eq_true_2.
Qed.

Lemma unique_joined_rows (d : Database) (l : list (Z * MovieModel.t)) seen :
  NoDup l.*1 -> (forall i, i ∈ l.*1 -> i ∉ seen) ->
  unique seen (l ≫= joined_rows d) = load_relations d <$> l.
Proof.
  revert seen. induction l as [|m l IH]; intros seen Hnd Hseen; [done|].
  rewrite fmap_cons in Hnd. apply NoDup_cons in Hnd as [Hm Hnd].
  rewrite bind_cons, fmap_cons. unfold joined_rows at 1.
  set (o := load_relations d m).
  destruct (Nat.max 1 (length (Movie.genres o)) * Nat.max 1 (length (Movie.actors o))
            * Nat.max 1 (length (Movie.languages o)))%nat as [|n] eqn:En; [lia|].
  simpl. rewrite bool_decide_eq_false_2 by (apply Hseen; rewrite fmap_cons; left).
  f_equal. rewrite unique_replicate by left.
  apply IH; [done|]. intros i Hi [->|Hin]%elem_of_cons; [done|].
  apply (Hseen i); [rewrite fmap_cons; by right|done].
Qed.

Lemma get_movie_with_id_run (movie_id : Z) (s : AsyncSession) :
  get_movie_with_id movie_id s =
  match movies (view s) !! movie_id with
  | None => (Raise (HTTPException 404 "Movie with the given ID was not found."), s)
  | Some r => (Ok (load_relations (view s) (movie_id, r)), s)
  end.
Proof.
  unfold get_movie_with_id. run_coroutine. rewrite select_by_id.
  destruct (movies (view s) !! movie_id) as [r|]; [|done].
  rewrite unique_joined_rows; [done| |].
  - simpl. apply NoDup_singleton.
  - intros i _. apply not_elem_of_nil.
Qed.

(** ** Update *)

Lemma getattr_setattr (r : MovieModel.t) (kv : item) (f : field) :
  getattr (setattr r kv) f = if decide (item_field kv = f) then kv else getattr r f.
Proof. by destruct r, kv, f. Qed.

Lemma relations_setattr (r : MovieModel.t) (kv : item) :
  relations (setattr r kv) = relations r.
Proof. by destruct r, kv. Qed.

Lemma item_field_dump (movie : MovieUpdateSchema.t) (f : field) :
  item_field (dump_field movie f) = f.
Proof. by destruct f. Qed.

Lemma getattr_foldl_setattr (movie : MovieUpdateSchema.t) (fs : list field)
    (r : MovieModel.t) (f : field) :
  getattr (foldl setattr r (dump_field movie <$> fs)) f
  = if decide (f ∈ fs) then dump_field movie f else getattr r f.
Proof.
  revert r. induction fs as [|g fs IH]; intros r.
  { by rewrite decide_False by apply not_elem_of_nil. }
  rewrite fmap_cons. cbn [foldl]. rewrite IH, getattr_setattr, item_field_dump.
  destruct (decide (f ∈ fs)) as [Hin|Hin].
  - by rewrite decide_True by (by right).
  - destruct (decide (g = f)) as [->|Hne].
    + by rewrite decide_True by left.
    + rewrite decide_False; [done|]. intros [->|?]%elem_of_cons; done.
Qed.

Lemma relations_foldl_setattr (data : list item) (r : MovieModel.t) :
  relations (foldl setattr r data) = relations r.
Proof.
  revert r. induction data as [|kv data IH]; intros r; [done|].
  simpl. by rewrite IH, relations_setattr.
Qed.

Lemma elem_of_model_fields (f : field) : f ∈ model_fields.
Proof. unfold model_fields. destruct f; set_solver. Qed.

Lemma getattr_update (movie : MovieUpdateSchema.t) (r : MovieModel.t) (f : field) :
  getattr (foldl setattr r (model_dump_exclude_unset movie)) f
  = if decide (f ∈ MovieUpdateSchema.model_fields_set movie)
    then dump_field movie f else getattr r f.
Proof.
  unfold model_dump_exclude_unset. rewrite getattr_foldl_setattr.
  destruct (decide (f ∈ MovieUpdateSchema.model_fields_set movie)) as [Hin|Hin].
  - rewrite decide_True; [done|]. apply list_elem_of_filter.
    split; [done|apply elem_of_model_fields].
  - rewrite decide_False; [done|]. by intros [? _]%list_elem_of_filter.
Qed.

(** C2: an update of an existing movie gives every field that the payload
    supplies the payload's value, leaves every other field of the row as it
    was, never changes the row's country, genres, actors or languages, and
    touches no other row of any table. *)
Theorem update_movie_changes_supplied_fields (db : Database) (movie_id : Z)
    (movie : MovieUpdateSchema.t) (r : MovieModel.t) :
  movies db !! movie_id = Some r ->
  exists r' db',
    request (update_movie movie_id movie) db = (Ok (movie_id, r'), db')
    /\ movies db' = <[movie_id := r']> (movies db)
    /\ (forall f, f ∈ MovieUpdateSchema.model_fields_set movie ->
          getattr r' f = dump_field movie f)
    /\ (forall f, f ∉ MovieUpdateSchema.model_fields_set movie ->
          getattr r' f = getattr r f)
    /\ MovieModel.country r' = MovieModel.country r
    /\ MovieModel.genres r' = MovieModel.genres r
    /\ MovieModel.actors r' = MovieModel.actors r
    /\ MovieModel.languages r' = MovieModel.languages r
    /\ genres db' = genres db /\ actors db' = actors db
    /\ languages db' = languages db /\ countries db' = countries db.
Proof.
  intros Hr. unfold request. rewrite update_movie_run. simpl. rewrite Hr.
  eexists _, _. split; [reflexivity|]. simpl.
  pose proof (relations_foldl_setattr (model_dump_exclude_unset movie) r) as Hrel.
  unfold relations in Hrel. injection Hrel as Hc Hg Ha Hl.
  repeat split; try done.
  - intros f Hf. by rewrite getattr_update, decide_True.
  - intros f Hf. by rewrite getattr_update, decide_False.
Qed.

Lemma update_movie_changes_supplied_fields_witness :
  exists r' db',
    request (update_movie 1 (rename "Dune: Part One")) db_dune
      = (Ok (1, r'), db')
    /\ MovieModel.name r' = Some "Dune: Part One"
    /\ MovieModel.date r' = Some (datetime.Date 739252)
    /\ MovieModel.genres r' = [1].
Proof.
  destruct (update_movie_changes_supplied_fields db_dune 1
              (rename "Dune: Part One")
              (MovieModel.Build (Some "Dune") (Some (datetime.Date 739252))
                 (Some 85%float) (Some "...") (Some "Released")
                 (Some 100%float) (Some 400%float) 1 [1] [1] [1]))
    as (r' & db' & Hrun & _ & Hset & Hkeep & _ & Hg & _).
  { vm_compute. reflexivity. }
  exists r', db'. split; [exact Hrun|]. split; [|split].
  - specialize (Hset f_name). simpl in Hset.
    assert (f_name ∈ [f_name]) as Hin by left.
    specialize (Hset Hin). by injection Hset.
  - specialize (Hkeep f_date). simpl in Hkeep.
    assert (f_date ∉ [f_name]) as Hnin by (by intros [?|?%elem_of_nil]%elem_of_cons).
    specialize (Hkeep Hnin). by injection Hkeep.
  - exact Hg.
Defined.

(** C10: a field that the payload supplies with the value null is stored as
    null, while a field that the payload leaves out keeps its value although
    the schema's default for it is null as well; the payload
    [{"date": null}] clears the release date. *)
Theorem update_movie_explicit_null (db : Database) (movie_id : Z)
    (movie : MovieUpdateSchema.t) (r : MovieModel.t) (f : field) :
  movies db !! movie_id = Some r ->
  f ∈ MovieUpdateSchema.model_fields_set movie ->
  is_null (dump_field movie f) ->
  exists r' db',
    request (update_movie movie_id movie) db = (Ok (movie_id, r'), db')
    /\ movies db' !! movie_id = Some r'
    /\ is_null (getattr r' f)
    /\ (forall g, g ∉ MovieUpdateSchema.model_fields_set movie ->
          getattr r' g = getattr r g)
    /\ (movie = date_null -> MovieModel.date r' = None).
Proof.
  intros Hr Hf Hnull. unfold request. rewrite update_movie_run. simpl. rewrite Hr.
  eexists _, _. split; [reflexivity|]. simpl.
  split; [by rewrite lookup_insert_eq|].
  split; [by rewrite getattr_update, decide_True|].
  split.
  - intros g Hg. by rewrite getattr_update, decide_False.
  - intros ->.
    pose proof (getattr_update date_null r f_date) as E.
    rewrite decide_True in E by (simpl; left). simpl in E. by injection E.
Qed.

Lemma update_movie_explicit_null_witness :
  exists r' db',
    request (update_movie 1 date_null) db_dune = (Ok (1, r'), db')
    /\ movies db' !! 1 = Some r'
    /\ MovieModel.date r' = None
    /\ MovieModel.name r' = Some "Dune".
Proof.
  destruct (update_movie_explicit_null db_dune 1 date_null
              (MovieModel.Build (Some "Dune") (Some (datetime.Date 739252))
                 (Some 85%float) (Some "...") (Some "Released")
                 (Some 100%float) (Some 400%float) 1 [1] [1] [1]) f_date)
    as (r' & db' & Hrun & Hlook & _ & Hkeep & Hdate).
  { vm_compute. reflexivity. }
  { simpl. left. }
  { simpl. reflexivity. }
  exists r', db'. split; [exact Hrun|]. split; [exact Hlook|]. split.
  - by apply Hdate.
  - specialize (Hkeep f_name). simpl in Hkeep.
    assert (f_name ∉ [f_date]) as Hnin by (by intros [?|?%elem_of_nil]%elem_of_cons).
    specialize (Hkeep Hnin). by injection Hkeep.
Defined.

(** ** Delete *)

(** C9: deleting an id that no movie has answers 404 and leaves the database
    as it was; deleting the id of a movie answers 204 with an empty body,
    removes that movie row and no other, keeps every country, genre, actor
    and language row, and a get of that id then fails with NotFound. *)
Theorem delete_movie_endpoint_spec (db : Database) (movie_id : Z) :
  (movies db !! movie_id = None ->
     delete_movie_endpoint movie_id db
     = ({| status_code := 404;
           content := detail_json "Movie with the given ID was not found." |}, db))
  /\ (forall r, movies db !! movie_id = Some r ->
      exists db',
        delete_movie_endpoint movie_id db
        = ({| status_code := 204; content := empty_body |}, db')
        /\ movies db' = delete movie_id (movies db)
        /\ genres db' = genres db /\ actors db' = actors db
        /\ languages db' = languages db /\ countries db' = countries db
        /\ request (get_movie_with_id movie_id) db'
           = (Raise (HTTPException 404 "Movie with the given ID was not found."),
              db')).
Proof.
  unfold delete_movie_endpoint, request. rewrite delete_movie_run. simpl. split.
  - by intros ->.
  - intros r ->. simpl. eexists. split; [reflexivity|]. simpl.
    repeat split.
    rewrite get_movie_with_id_run. simpl. by rewrite lookup_delete_eq.
Qed.

Lemma delete_movie_endpoint_spec_witness :
  delete_movie_endpoint 7 db_two
  = ({| status_code := 404;
        content := detail_json "Movie with the given ID was not found." |}, db_two)
  /\ exists db',
       delete_movie_endpoint 2 db_two
       = ({| status_code := 204; content := empty_body |}, db')
       /\ movies db' = delete 2 (movies db_two)
       /\ genres db' = genres db_two /\ actors db' = actors db_two
       /\ languages db' = languages db_two /\ countries db' = countries db_two
       /\ request (get_movie_with_id 2) db'
          = (Raise (HTTPException 404 "Movie with the given ID was not found."),
             db').
Proof.
  split.
  - apply (proj1 (delete_movie_endpoint_spec db_two 7)). vm_compute. reflexivity.
  - apply (proj2 (delete_movie_endpoint_spec db_two 2)
             (MovieModel.Build (Some "Arrival") (Some (datetime.Date 739252))
                (Some 79.5%float) (Some "Twelve ships") (Some "Released")
                (Some 47%float) (Some 203%float) 1 [2; 1] [2; 1] [1; 2])).
    vm_compute. reflexivity.
Defined.

(** ** List *)

Lemma id_desc_total {R} : Total (@id_desc R).
Proof. intros a b. unfold id_desc. lia. Qed.

Lemma id_desc_trans {R} : Transitive (@id_desc R).
Proof. intros a b c. unfold id_desc. lia. Qed.

Lemma movies_desc_Permutation (d : Database) :
  movies_desc d ≡ₚ map_to_list (movies d).
Proof. apply merge_sort_Permutation. Qed.

Lemma movies_desc_NoDup (d : Database) : NoDup (movies_desc d).*1.
Proof.
  rewrite (movies_desc_Permutation d). apply NoDup_fst_map_to_list.
Qed.

Lemma movies_desc_length (d : Database) :
  length (movies_desc d) = size (movies d).
Proof.
  rewrite (movies_desc_Permutation d). apply length_map_to_list.
Qed.

(** On rows with distinct keys, descending order is strictly descending. *)
Lemma StronglySorted_strict {R} (l : list (Z * R)) :
  NoDup l.*1 -> StronglySorted id_desc l ->
  StronglySorted (fun a b => b < a) l.*1.
Proof.
  induction l as [|a l IH]; intros Hnd Hs; [constructor|].
  rewrite fmap_cons in *. apply NoDup_cons in Hnd as [Ha Hnd].
  apply StronglySorted_inv in Hs as [Hs Hall].
  constructor; [by apply IH|].
  apply Forall_fmap, Forall_forall. intros b Hb. simpl.
  rewrite Forall_forall in Hall. specialize (Hall b Hb). unfold id_desc in Hall.
  assert (b.1 <> a.1); [|lia].
  intros E. apply Ha. rewrite <- E. by apply list_elem_of_fmap_2.
Qed.

Lemma movies_desc_sorted (d : Database) :
  StronglySorted (fun a b => b < a) (movies_desc d).*1.
Proof.
  apply StronglySorted_strict; [apply movies_desc_NoDup|].
  apply StronglySorted_merge_sort; [apply id_desc_trans|apply id_desc_total].
Qed.

Lemma StronglySorted_sublist {A} (R : relation A) (l k : list A) :
  sublist l k -> StronglySorted R k -> StronglySorted R l.
Proof.
  induction 1 as [|x l k Hsub IH|x l k Hsub IH]; intros Hs; [done| |].
  - apply StronglySorted_inv in Hs as [Hs Hall]. constructor; [by apply IH|].
    rewrite Forall_forall in *. intros y Hy. apply Hall.
    by eapply elem_of_sublist.
  - apply StronglySorted_inv in Hs as [Hs _]. by apply IH.
Qed.

Lemma offset_limit_sublist {A} (offset limit : Z) (l : list A) :
  sublist (offset_limit offset limit l) l.
Proof.
  unfold offset_limit. etrans; [apply sublist_take|apply sublist_drop].
Qed.

Lemma offset_limit_length {A} (offset limit : Z) (l : list A) :
  0 <= limit -> Z.of_nat (length (offset_limit offset limit l)) <= limit.
Proof. intros. unfold offset_limit. rewrite length_take. lia. Qed.

Lemma offset_limit_nil {A} (offset limit : Z) (l : list A) :
  0 <= offset -> 0 < limit ->
  offset_limit offset limit l = [] <-> Z.of_nat (length l) <= offset.
Proof.
  intros Ho Hl. unfold offset_limit. split.
  - intros E. apply (f_equal length) in E. rewrite length_take, length_drop in E.
    simpl in E. lia.
  - intros Hle. rewrite drop_ge by lia. apply take_nil.
Qed.

(** What [get_movies] computes, with the fetched page made explicit. *)
Lemma get_movies_run (page per_page : Z) (s : AsyncSession) :
  get_movies page per_page s =
  let fetched :=
    offset_limit ((page - 1) * per_page) per_page (movies_desc (view s)) in
  let total_items := Z.of_nat (size (movies (view s))) in
  let total_pages := (total_items + per_page - 1) `div` per_page in
  if bool_decide (per_page = 0)
  then (Raise ZeroDivisionError, s)
  else
    match fetched with
    | [] => (Raise (HTTPException 404 "No movies found."), s)
    | _ =>
        (Ok {| MoviePage.movies := load_relations (view s) <$> fetched;
               MoviePage.prev_page :=
                 if bool_decide (page > 1)
                 then Some (page_link (page - 1) per_page) else None;
               MoviePage.next_page :=
                 if bool_decide (page < total_pages)
                 then Some (page_link (page + 1) per_page) else None;
               MoviePage.total_pages := total_pages;
               MoviePage.total_items := total_items |}, s)
    end.
Proof.
  unfold get_movies, get_obj_count, select_count, select_movies_joined.
  unfold mbind, Coroutine_bind, mret, Coroutine_ret, raise. cbn zeta.
  cbn [view].
  rewrite unique_joined_rows.
  - case_bool_decide; [done|].
    by destruct (offset_limit ((page - 1) * per_page) per_page (movies_desc (view s))).
  - eapply sublist_NoDup; [apply movies_desc_NoDup|].
    apply fmap_sublist, offset_limit_sublist.
  - intros i _. apply not_elem_of_nil.
Qed.

Lemma get_movies_Ok (page per_page : Z) (db db' : Database) (r : MoviePage.t) :
  request (get_movies page per_page) db = (Ok r, db') ->
  let fetched := offset_limit ((page - 1) * per_page) per_page (movies_desc db) in
  let total_items := Z.of_nat (size (movies db)) in
  let total_pages := (total_items + per_page - 1) `div` per_page in
  per_page <> 0 /\ db' = db /\ fetched <> []
  /\ r = {| MoviePage.movies := load_relations db <$> fetched;
            MoviePage.prev_page :=
              if bool_decide (page > 1)
              then Some (page_link (page - 1) per_page) else None;
            MoviePage.next_page :=
              if bool_decide (page < total_pages)
              then Some (page_link (page + 1) per_page) else None;
            MoviePage.total_pages := total_pages;
            MoviePage.total_items := total_items |}.
Proof.
  unfold request. rewrite get_movies_run. cbn zeta. cbn [view database].
  case_bool_decide as Hpp; [done|].
  destruct (offset_limit ((page - 1) * per_page) per_page (movies_desc db))
    as [|m fetched] eqn:E; [done|].
  intros [= <- <-]. done.
Qed.

(** C4: for page >= 1 and per_page in [1,20], the movies of a list result are
    the movies of the store by descending id with the first
    (page-1)*per_page skipped and at most per_page taken: no more than
    per_page movies, with strictly descending and so distinct ids. *)
Theorem get_movies_page (db db' : Database) (page per_page : Z) (r : MoviePage.t) :
  1 <= page -> 1 <= per_page <= 20 ->
  request (get_movies page per_page) db = (Ok r, db') ->
  MoviePage.movies r
  = load_relations db <$>
      take (Z.to_nat per_page)
        (drop (Z.to_nat ((page - 1) * per_page)) (movies_desc db))
  /\ movies_desc db ≡ₚ map_to_list (movies db)
  /\ StronglySorted (fun a b => b < a) (movies_desc db).*1
  /\ Z.of_nat (length (MoviePage.movies r)) <= per_page
  /\ StronglySorted (fun a b => b < a) (Movie.id <$> MoviePage.movies r)
  /\ NoDup (Movie.id <$> MoviePage.movies r).
Proof.
  intros Hpage Hpp Hrun. apply get_movies_Ok in Hrun as (_ & _ & _ & ->).
  cbn [MoviePage.movies].
  assert (Movie.id <$> (load_relations db <$>
            offset_limit ((page - 1) * per_page) per_page (movies_desc db))
          = (offset_limit ((page - 1) * per_page) per_page (movies_desc db)).*1)
    as Hids by (by rewrite <- list_fmap_compose).
  split; [done|]. split; [apply movies_desc_Permutation|].
  split; [apply movies_desc_sorted|].
  split; [rewrite length_fmap; apply offset_limit_length; lia|].
  rewrite Hids. split.
  - eapply StronglySorted_sublist; [|apply movies_desc_sorted].
    apply fmap_sublist, offset_limit_sublist.
  - eapply sublist_NoDup; [apply movies_desc_NoDup|].
    apply fmap_sublist, offset_limit_sublist.
Qed.

(** C5: total_items is the number of movie rows in the store, and
    total_pages is that number divided by per_page and rounded up: the least
    number of pages of per_page movies that hold them all. *)
Theorem get_movies_totals (db db' : Database) (page per_page : Z) (r : MoviePage.t) :
  1 <= per_page ->
  request (get_movies page per_page) db = (Ok r, db') ->
  MoviePage.total_items r = Z.of_nat (size (movies db))
  /\ MoviePage.total_items r = Z.of_nat (length (map_to_list (movies db)))
  /\ (MoviePage.total_pages r - 1) * per_page < MoviePage.total_items r
     <= MoviePage.total_pages r * per_page.
Proof.
  intros Hpp Hrun. apply get_movies_Ok in Hrun as (_ & _ & _ & ->).
  cbn [MoviePage.total_items MoviePage.total_pages].
  split; [done|]. split; [by rewrite length_map_to_list|].
  set (n := Z.of_nat (size (movies db))).
  pose proof (Z.div_mod (n + per_page - 1) per_page) as Hdm.
  pose proof (Z.mod_pos_bound (n + per_page - 1) per_page) as Hb.
  nia.
Qed.

(** C6: in a list result the link to the next page is present exactly when
    page < total_pages, and the link to the previous page exactly when
    page > 1. *)
Theorem get_movies_links (db db' : Database) (page per_page : Z) (r : MoviePage.t) :
  request (get_movies page per_page) db = (Ok r, db') ->
  (is_Some (MoviePage.next_page r) <-> page < MoviePage.total_pages r)
  /\ (is_Some (MoviePage.prev_page r) <-> page > 1)
  /\ (page < MoviePage.total_pages r ->
      MoviePage.next_page r = Some (page_link (page + 1) per_page))
  /\ (page > 1 -> MoviePage.prev_page r = Some (page_link (page - 1) per_page)).
Proof.
  intros Hrun. apply get_movies_Ok in Hrun as (_ & _ & _ & ->).
  cbn [MoviePage.next_page MoviePage.prev_page MoviePage.total_pages].
  repeat split.
  - case_bool_decide; [done|]. by intros [? ?].
  - intros. by rewrite bool_decide_eq_true_2.
  - case_bool_decide; [done|]. by intros [? ?].
  - intros. by rewrite bool_decide_eq_true_2.
  - intros. by rewrite bool_decide_eq_true_2.
  - intros. by rewrite bool_decide_eq_true_2.
Qed.

(** C7: for page >= 1 and per_page in [1,20], listing fails with 404 and
    "No movies found." exactly when the fetched page is empty, which is when
    the offset reaches the number of movies; a page beyond total_pages is
    such a page; a result that is returned is never empty; the store is
    unchanged either way. *)
Theorem get_movies_not_found (db : Database) (page per_page : Z) :
  1 <= page -> 1 <= per_page <= 20 ->
  let fetched :=
    take (Z.to_nat per_page)
      (drop (Z.to_nat ((page - 1) * per_page)) (movies_desc db)) in
  let total_items := Z.of_nat (size (movies db)) in
  (request (get_movies page per_page) db
     = (Raise (HTTPException 404 "No movies found."), db)
   <-> fetched = [])
  /\ (fetched = [] <-> total_items <= (page - 1) * per_page)
  /\ ((total_items + per_page - 1) `div` per_page < page ->
      request (get_movies page per_page) db
      = (Raise (HTTPException 404 "No movies found."), db))
  /\ (forall r db', request (get_movies page per_page) db = (Ok r, db') ->
        MoviePage.movies r <> [] /\ db' = db)
  /\ (fetched <> [] ->
      exists r, request (get_movies page per_page) db = (Ok r, db)).
Proof.
  intros Hpage Hpp fetched total_items.
  assert (fetched = [] <-> total_items <= (page - 1) * per_page) as Hempty.
  { unfold fetched, total_items. rewrite <- movies_desc_length.
    apply (offset_limit_nil ((page - 1) * per_page) per_page); nia. }
  assert (request (get_movies page per_page) db
            = (Raise (HTTPException 404 "No movies found."), db)
          <-> fetched = []) as Hiff.
  { unfold request. rewrite get_movies_run. cbn zeta. cbn [view database].
    rewrite bool_decide_eq_false_2 by lia. fold (offset_limit ((page - 1) * per_page)
      per_page (movies_desc db)) in fetched. fold fetched.
    destruct fetched; split; done. }
  split; [exact Hiff|]. split; [exact Hempty|]. split; [|split].
  - intros Hlt. apply Hiff, Hempty.
    pose proof (Z.div_mod (total_items + per_page - 1) per_page) as Hdm.
    pose proof (Z.mod_pos_bound (total_items + per_page - 1) per_page) as Hb.
    nia.
  - intros r db' Hrun. apply get_movies_Ok in Hrun as (_ & -> & Hne & ->).
    split; [|done]. cbn [MoviePage.movies]. intros E. apply Hne.
    by apply fmap_nil_inv in E.
  - intros Hne. unfold request. rewrite get_movies_run. cbn zeta.
    cbn [view database]. rewrite bool_decide_eq_false_2 by lia.
    fold (offset_limit ((page - 1) * per_page) per_page (movies_desc db)) in fetched, Hne.
    fold fetched. destruct fetched; [done|]. eexists. reflexivity.
Qed.

Lemma get_movies_page_witness :
  MoviePage.movies second_page
  = load_relations db_two <$>
      take (Z.to_nat 1) (drop (Z.to_nat ((2 - 1) * 1)) (movies_desc db_two))
  /\ movies_desc db_two ≡ₚ map_to_list (movies db_two)
  /\ StronglySorted (fun a b => b < a) (movies_desc db_two).*1
  /\ Z.of_nat (length (MoviePage.movies second_page)) <= 1
  /\ StronglySorted (fun a b => b < a) (Movie.id <$> MoviePage.movies second_page)
  /\ NoDup (Movie.id <$> MoviePage.movies second_page).
Proof.
  apply (get_movies_page db_two db_two 2 1 second_page).
  - lia.
  - lia.
  - vm_compute. reflexivity.
Defined.

Lemma get_movies_totals_witness :
  MoviePage.total_items second_page = Z.of_nat (size (movies db_two))
  /\ MoviePage.total_items second_page
     = Z.of_nat (length (map_to_list (movies db_two)))
  /\ (MoviePage.total_pages second_page - 1) * 1
     < MoviePage.total_items second_page
     <= MoviePage.total_pages second_page * 1.
Proof.
  apply (get_movies_totals db_two db_two 2 1 second_page).
  - lia.
  - vm_compute. reflexivity.
Defined.

Lemma get_movies_links_witness :
  (is_Some (MoviePage.next_page second_page)
     <-> 2 < MoviePage.total_pages second_page)
  /\ (is_Some (MoviePage.prev_page second_page) <-> 2 > 1)
  /\ (2 < MoviePage.total_pages second_page ->
      MoviePage.next_page second_page = Some (page_link (2 + 1) 1))
  /\ (2 > 1 -> MoviePage.prev_page second_page = Some (page_link (2 - 1) 1)).
Proof.
  apply (get_movies_links db_two db_two 2 1 second_page).
  vm_compute. reflexivity.
Defined.

Lemma get_movies_not_found_witness :
  request (get_movies 3 1) db_two
  = (Raise (HTTPException 404 "No movies found."), db_two)
  /\ exists r, request (get_movies 2 1) db_two = (Ok r, db_two).
Proof.
  split.
  - destruct (get_movies_not_found db_two 3 1) as (_ & _ & Hbeyond & _);
      [lia|lia|].
    apply Hbeyond. vm_compute. reflexivity.
  - destruct (get_movies_not_found db_two 2 1) as (_ & _ & _ & _ & Hsome);
      [lia|lia|].
    apply Hsome. vm_compute. discriminate.
Defined.

(** ** Get-or-create *)

#[global] Instance GenreKeyLaws : NaturalKeyLaws GenreModel.t.
Proof. by split. Qed.
#[global] Instance ActorKeyLaws : NaturalKeyLaws ActorModel.t.
Proof. by split. Qed.
#[global] Instance LanguageKeyLaws : NaturalKeyLaws LanguageModel.t.
Proof. by split. Qed.
#[global] Instance CountryKeyLaws : NaturalKeyLaws CountryModel.t.
Proof. by split. Qed.

Section get_or_create.
Context {R : Type} `{NaturalKeyLaws R} `{!TableLaws R}.

Lemma get_or_create_run (k : string) (s : AsyncSession) :
  get_or_create (R := R) k s =
  match filter (fun r => bool_decide (natural_key r.2 = k) = true)
          (map_to_list (rows (view s))) with
  | [] =>
      let i := generate_id (rows (view s)) in
      (Ok (i, from_key k),
       {| database := database s;
          view := set_rows (<[i := from_key k]> (rows (view s))) (view s) |})
  | [instance] => (Ok instance, s)
  | _ => (Raise MultipleResultsFound, s)
  end.
Proof.
  unfold get_or_create. run_coroutine.
  destruct (filter _ _) as [|x [|y l]]; try done.
  simpl. unfold refresh. simpl. by rewrite rows_set_rows, lookup_insert_eq.
Qed.

Lemma get_or_create_spec (k : string) (s : AsyncSession) :
  unique_keys (rows (view s)) ->
  exists instance t',
    get_or_create (R := R) k s
    = (Ok instance, {| database := database s; view := set_rows t' (view s) |})
    /\ rows (view s) ⊆ t' /\ unique_keys t' /\ row_for t' k instance.
Proof.
  intros Huniq. rewrite get_or_create_run.
  set (t := rows (view s)) in *.
  destruct (filter _ (map_to_list t)) as [|x [|y l]] eqn:E.
  - (* no row has the key: a new one is inserted *)
    assert (forall j r, t !! j = Some r -> natural_key r <> k) as Hnone.
    { intros j r Hj Hk.
      assert ((j, r) ∈ filter (fun r : Z * R => bool_decide (natural_key r.2 = k) = true)
                (map_to_list t)) as Hin.
      { apply list_elem_of_filter. split; [by apply bool_decide_eq_true|].
        by apply elem_of_map_to_list. }
      rewrite E in Hin. by apply elem_of_nil in Hin. }
    pose proof (generate_id_fresh t) as Hfresh.
    eexists (_, _), _. split; [reflexivity|].
    split; [by apply insert_subseteq|]. split.
    + intros i j r r' Hi Hj Hk.
      apply lookup_insert_Some in Hi as [[<- <-]|[Hni Hi]];
        apply lookup_insert_Some in Hj as [[<- <-]|[Hnj Hj]]; try done.
      * rewrite natural_key_from_key in Hk. by destruct (Hnone _ _ Hj).
      * rewrite natural_key_from_key in Hk. by destruct (Hnone _ _ Hi).
      * by eapply Huniq.
    + split; simpl; [apply lookup_insert_eq|apply natural_key_from_key].
  - (* one row has the key: it is reused *)
    assert (x ∈ filter (fun r : Z * R => bool_decide (natural_key r.2 = k) = true)
              (map_to_list t)) as Hin by (rewrite E; left).
    apply list_elem_of_filter in Hin as [Hk Hin]. apply bool_decide_eq_true in Hk.
    destruct x as [i r]. apply elem_of_map_to_list in Hin.
    exists (i, r), t. split; [|done].
    unfold t. rewrite set_rows_rows. by destruct s.
  - (* two rows with the key contradict the invariant *)
    exfalso.
    assert (NoDup (x :: y :: l)) as Hnd.
    { rewrite <- E. apply NoDup_filter, NoDup_map_to_list. }
    assert (forall z, z ∈ x :: y :: l -> t !! z.1 = Some z.2 /\ natural_key z.2 = k)
      as Hrows.
    { intros [i r] Hz. rewrite <- E in Hz.
      apply list_elem_of_filter in Hz as [Hk Hz]. apply bool_decide_eq_true in Hk.
      by apply elem_of_map_to_list in Hz. }
    destruct (Hrows x) as [Hx Hkx]; [left|].
    destruct (Hrows y) as [Hy Hky]; [right; left|].
    assert (x.1 = y.1) as Heq by (eapply Huniq; [done..|congruence]).
    assert (x = y) as ->.
    { destruct x, y; simpl in *. subst. congruence. }
    apply NoDup_cons in Hnd as [Hnin _]. apply Hnin. left.
Qed.

(** The list comprehension over the names of a create input. *)
Lemma mapM_get_or_create_spec (ks : list string) (s : AsyncSession) :
  unique_keys (rows (view s)) ->
  exists instances t',
    mapM (get_or_create (R := R)) ks s
    = (Ok instances, {| database := database s; view := set_rows t' (view s) |})
    /\ rows (view s) ⊆ t' /\ unique_keys t'
    /\ Forall2 (row_for t') ks instances.
Proof.
  revert s. induction ks as [|k ks IH]; intros s Huniq.
  - exists [], (rows (view s)). split.
    { simpl. unfold mret, Coroutine_ret. rewrite set_rows_rows. by destruct s. }
    split; [done|]. split; [done|constructor].
  - destruct (get_or_create_spec k s Huniq) as (x & t1 & Hrun1 & Hsub1 & Hu1 & Hx).
    set (s1 := {| database := database s; view := set_rows t1 (view s) |}) in *.
    destruct (IH s1) as (l & t2 & Hrun2 & Hsub2 & Hu2 & Hl).
    { simpl. by rewrite rows_set_rows. }
    simpl in Hrun2, Hsub2. rewrite rows_set_rows in Hsub2.
    rewrite set_rows_set_rows in Hrun2.
    exists (x :: l), t2. split.
    { cbn [mapM]. erewrite bind_Ok by exact Hrun1.
      erewrite bind_Ok by exact Hrun2. reflexivity. }
    split; [by etrans|]. split; [done|].
    constructor; [|done]. destruct Hx as [Hx1 Hx2]. split; [|done].
    by eapply lookup_weaken.
Qed.

Lemma keeps_refl (t : gmap Z R) : keeps t t.
Proof. unfold keeps. split; [done|]. split; auto. Qed.

Lemma keeps_trans (t1 t2 t3 : gmap Z R) : keeps t1 t2 -> keeps t2 t3 -> keeps t1 t3.
Proof.
  intros (? & H12 & ?) (? & H23 & ?). split; [by etrans|]. split; [|tauto].
  intros k x Hx. by apply H23, H12.
Qed.

(** The insertion branch: [k] was looked up and not found. *)
Lemma keeps_insert (t : gmap Z R) (k : string) :
  (forall j r, t !! j = Some r -> natural_key r <> k) ->
  keeps t (<[generate_id t := from_key k]> t)
  /\ only_row_for (<[generate_id t := from_key k]> t) k (generate_id t, from_key k).
Proof.
  intros Hnone. pose proof (generate_id_fresh t) as Hfresh.
  split; [split; [by apply insert_subseteq|split]|].
  - intros k0 [i0 r0] [[Hx Hk0] Honly]. simpl in *. split.
    + split; simpl; [|done]. rewrite lookup_insert_ne; [done|]. congruence.
    + intros [j r'] [Hy Hk']. simpl in *.
      apply lookup_insert_Some in Hy as [[<- <-]|[Hne Hy]].
      * rewrite natural_key_from_key in Hk'. subst k0.
        by destruct (Hnone _ _ Hx).
      * by apply Honly.
  - intros Huniq i j r r' Hi Hj Hk.
    apply lookup_insert_Some in Hi as [[<- <-]|[Hni Hi]];
      apply lookup_insert_Some in Hj as [[<- <-]|[Hnj Hj]]; try done.
    + rewrite natural_key_from_key in Hk. by destruct (Hnone _ _ Hj).
    + rewrite natural_key_from_key in Hk. by destruct (Hnone _ _ Hi).
    + by eapply Huniq.
  - split; [split; simpl; [apply lookup_insert_eq|apply natural_key_from_key]|].
    intros [j r'] [Hy Hk']. simpl in *.
    apply lookup_insert_Some in Hy as [[<- <-]|[Hne Hy]]; [done|].
    by destruct (Hnone _ _ Hy).
Qed.

(** On any table, [get_or_create] either finds several rows and raises,
    leaving the session as it was, or returns the only row with the key. *)
Lemma get_or_create_cases (k : string) (s : AsyncSession) :
  get_or_create (R := R) k s = (Raise MultipleResultsFound, s)
  \/ exists instance t',
       get_or_create (R := R) k s
       = (Ok instance, {| database := database s; view := set_rows t' (view s) |})
       /\ keeps (rows (view s)) t' /\ only_row_for t' k instance.
Proof.
  rewrite get_or_create_run.
  set (t := rows (view s)) in *.
  destruct (filter _ (map_to_list t)) as [|x [|y l]] eqn:E.
  - right.
    assert (forall j r, t !! j = Some r -> natural_key r <> k) as Hnone.
    { intros j r Hj Hk.
      assert ((j, r) ∈ filter (fun r : Z * R => bool_decide (natural_key r.2 = k) = true)
                (map_to_list t)) as Hin.
      { apply list_elem_of_filter. split; [by apply bool_decide_eq_true|].
        by apply elem_of_map_to_list. }
      rewrite E in Hin. by apply elem_of_nil in Hin. }
    destruct (keeps_insert t k Hnone) as [Hkeeps Honly].
    eexists (_, _), _. split; [reflexivity|done].
  - right. exists x, t. split; [|split; [apply keeps_refl|]].
    { unfold t. rewrite set_rows_rows. by destruct s. }
    assert (forall y, row_for t k y <->
              y ∈ filter (fun r : Z * R => bool_decide (natural_key r.2 = k) = true)
                    (map_to_list t)) as Hrow.
    { intros [j r]. unfold row_for. simpl.
      rewrite list_elem_of_filter, bool_decide_eq_true, elem_of_map_to_list. tauto. }
    split.
    + apply Hrow. rewrite E. left.
    + intros y Hy%Hrow. rewrite E in Hy. by apply list_elem_of_singleton in Hy.
  - by left.
Qed.

Lemma mapM_get_or_create_cases (ks : list string) (s : AsyncSession) :
  (exists e s', mapM (get_or_create (R := R)) ks s = (Raise e, s')
                /\ database s' = database s)
  \/ exists instances t',
       mapM (get_or_create (R := R)) ks s
       = (Ok instances, {| database := database s; view := set_rows t' (view s) |})
       /\ keeps (rows (view s)) t' /\ Forall2 (only_row_for t') ks instances.
Proof.
  revert s. induction ks as [|k ks IH]; intros s.
  - right. exists [], (rows (view s)). split.
    { simpl. unfold mret, Coroutine_ret. rewrite set_rows_rows. by destruct s. }
    split; [apply keeps_refl|constructor].
  - destruct (get_or_create_cases k s) as [Hrun1|(x & t1 & Hrun1 & Hk1 & Hx)].
    { left. exists MultipleResultsFound, s. split; [|done].
      cbn [mapM]. by erewrite bind_Raise by exact Hrun1. }
    set (s1 := {| database := database s; view := set_rows t1 (view s) |}) in *.
    destruct (IH s1) as [(e & s' & Hrun2 & Hdb)|(l & t2 & Hrun2 & Hk2 & Hl)].
    { left. exists e, s'. split; [|done].
      cbn [mapM]. erewrite bind_Ok by exact Hrun1.
      by erewrite bind_Raise by exact Hrun2. }
    right. simpl in Hrun2, Hk2. rewrite rows_set_rows in Hk2.
    rewrite set_rows_set_rows in Hrun2.
    exists (x :: l), t2. split.
    { cbn [mapM]. erewrite bind_Ok by exact Hrun1.
      erewrite bind_Ok by exact Hrun2. reflexivity. }
    split; [by eapply keeps_trans|].
    constructor; [|done]. destruct Hk2 as (_ & Hkeep & _). by apply Hkeep.
Qed.

End get_or_create.

(** ** Create *)

Lemma name_data_unique_validaton_run (movie_data : MovieCreateSchema.t)
    (s : AsyncSession) :
  name_data_unique_validaton movie_data s =
  match filter (fun r => same_name_date movie_data r = true)
          (map_to_list (movies (view s))) with
  | [] => (Ok (), s)
  | [_] => (Raise (HTTPException 409 (conflict_detail movie_data)), s)
  | _ => (Raise MultipleResultsFound, s)
  end.
Proof.
  unfold name_data_unique_validaton. run_coroutine.
  by destruct (filter _ _) as [|x [|y l]].
Qed.

Lemma create_film_raises (movie_data : MovieCreateSchema.t) (db : Database)
    (e : exn) (s' : AsyncSession) :
  name_data_unique_validaton movie_data {| database := db; view := db |}
    = (Raise e, s') ->
  database s' = db ->
  request (create_film movie_data) db = (Raise e, db).
Proof.
  intros Hrun Hdb. unfold request, create_film.
  erewrite bind_Raise by exact Hrun. by rewrite Hdb.
Qed.

(** Once the uniqueness check has passed, a create on a database with unique
    natural keys succeeds: every name is resolved to the one row that has it,
    and the movie row is inserted under a new key. *)
Lemma create_film_succeeds (movie_data : MovieCreateSchema.t) (db : Database) :
  keys_ok db ->
  filter (fun r => same_name_date movie_data r = true) (map_to_list (movies db)) = [] ->
  exists gs acs ls c G A L C,
    let row := new_row movie_data c gs acs ls in
    let movie_id := generate_id (movies db) in
    let db' := {| movies := <[movie_id := row]> (movies db); genres := G;
                  actors := A; languages := L; countries := C |} in
    request (create_film movie_data) db
      = (Ok (Some (load_relations db' (movie_id, row))), db')
    /\ (genres db ⊆ G /\ unique_keys G
        /\ Forall2 (row_for G) (MovieCreateSchema.genres movie_data) gs)
    /\ (actors db ⊆ A /\ unique_keys A
        /\ Forall2 (row_for A) (MovieCreateSchema.actors movie_data) acs)
    /\ (languages db ⊆ L /\ unique_keys L
        /\ Forall2 (row_for L) (MovieCreateSchema.languages movie_data) ls)
    /\ (countries db ⊆ C /\ unique_keys C
        /\ row_for C (MovieCreateSchema.country movie_data) c).
Proof.
  intros [Hg Ha Hl Hc] Hnone.
  set (s0 := {| database := db; view := db |}).
  destruct (mapM_get_or_create_spec (R := GenreModel.t)
              (MovieCreateSchema.genres movie_data) s0 Hg)
    as (gs & G & Hrun1 & HG).
  set (s1 := {| database := database s0; view := set_rows G (view s0) |}) in *.
  destruct (mapM_get_or_create_spec (R := ActorModel.t)
              (MovieCreateSchema.actors movie_data) s1 Ha)
    as (acs & A & Hrun2 & HA).
  set (s2 := {| database := database s1; view := set_rows A (view s1) |}) in *.
  destruct (mapM_get_or_create_spec (R := LanguageModel.t)
              (MovieCreateSchema.languages movie_data) s2 Hl)
    as (ls & L & Hrun3 & HL).
  set (s3 := {| database := database s2; view := set_rows L (view s2) |}) in *.
  destruct (get_or_create_spec (R := CountryModel.t)
              (MovieCreateSchema.country movie_data) s3 Hc)
    as (c & C & Hrun4 & HC).
  exists gs, acs, ls, c, G, A, L, C. cbn zeta.
  split; [|done].
  unfold request, create_film. fold s0.
  erewrite bind_Ok; last first.
  { rewrite name_data_unique_validaton_run. cbn [view s0]. by rewrite Hnone. }
  erewrite bind_Ok by exact Hrun1.
  erewrite bind_Ok by exact Hrun2.
  erewrite bind_Ok by exact Hrun3.
  erewrite bind_Ok by exact Hrun4.
  unfold add_flush, commit, refresh, select_where_selectin.
  unfold mbind, Coroutine_bind, mret, Coroutine_ret.
  cbn [view database s0 s1 s2 s3 rows set_rows MovieTable GenreTable ActorTable
       LanguageTable CountryTable movies genres actors languages countries fst snd].
  rewrite select_by_id, lookup_insert_eq. reflexivity.
Qed.

Lemma filter_none {A} (P : A -> Prop) `{forall x, Decision (P x)} (l : list A) :
  (forall y, y ∈ l -> ~ P y) -> filter P l = [].
Proof.
  induction l as [|a l IH]; intros Hall; [done|].
  rewrite filter_cons_False by (apply Hall; left).
  apply IH. intros y Hy. apply Hall. by right.
Qed.

Lemma filter_one {A} (P : A -> Prop) `{forall x, Decision (P x)} (l : list A) (x : A) :
  NoDup l -> x ∈ l -> P x -> (forall y, y ∈ l -> P y -> y = x) ->
  filter P l = [x].
Proof.
  induction l as [|a l IH]; intros Hnd Hin HP Hall; [by apply elem_of_nil in Hin|].
  apply NoDup_cons in Hnd as [Ha Hnd].
  apply elem_of_cons in Hin as [->|Hin].
  - rewrite filter_cons_True by done. f_equal.
    apply filter_none. intros y Hy HPy.
    apply Ha. rewrite <- (Hall y); [done|by right|done].
  - rewrite filter_cons_False.
    + apply IH; [done..|]. intros y Hy. apply Hall. by right.
    + intros HPa. apply Ha. rewrite (Hall a); [done|left|done].
Qed.

Lemma same_name_date_true (movie_data : MovieCreateSchema.t) (r : Z * MovieModel.t) :
  same_name_date movie_data r = true
  <-> MovieModel.name r.2 = Some (MovieCreateSchema.name movie_data)
      /\ MovieModel.date r.2 = Some (MovieCreateSchema.date movie_data).
Proof.
  unfold same_name_date. by rewrite andb_true_iff, !bool_decide_eq_true.
Qed.

(** The path of the uniqueness check with one match: when exactly one movie
    row has the name and the date of the input, the create fails with status
    409 and a detail that names both, and the database is unchanged. *)
Theorem create_film_conflict (db : Database) (movie_data : MovieCreateSchema.t)
    (i : Z) (r : MovieModel.t) :
  movies db !! i = Some r ->
  MovieModel.name r = Some (MovieCreateSchema.name movie_data) ->
  MovieModel.date r = Some (MovieCreateSchema.date movie_data) ->
  (forall j r', movies db !! j = Some r' ->
     MovieModel.name r' = Some (MovieCreateSchema.name movie_data) ->
     MovieModel.date r' = Some (MovieCreateSchema.date movie_data) -> j = i) ->
  let detail :=
    "A movie with the name '" +:+ MovieCreateSchema.name movie_data
    +:+ "' and release date '"
    +:+ datetime.isoformat (MovieCreateSchema.date movie_data)
    +:+ "' already exists." in
  request (create_film movie_data) db = (Raise (HTTPException 409 detail), db)
  /\ create_movies movie_data db
     = ({| status_code := 409; content := detail_json detail |}, db).
Proof.
  intros Hi Hname Hdate Hone detail.
  assert (detail = conflict_detail movie_data) as ->.
  { reflexivity. }
  assert (request (create_film movie_data) db
          = (Raise (HTTPException 409 (conflict_detail movie_data)), db)) as Hrun.
  { eapply (create_film_raises _ _ _ {| database := db; view := db |});
      [|reflexivity].
    rewrite name_data_unique_validaton_run. cbn [view].
    rewrite (filter_one _ _ (i, r)); [done| | | |].
    - apply NoDup_map_to_list.
    - by apply elem_of_map_to_list.
    - by apply same_name_date_true.
    - intros [j r'] Hj [Hn Hd]%same_name_date_true.
      apply elem_of_map_to_list in Hj. simpl in *.
      assert (j = i) as -> by (by eapply Hone). congruence. }
  split; [exact Hrun|].
  unfold create_movies, request in *.
  unfold mbind at 1. unfold Coroutine_bind.
  destruct (create_film movie_data {| database := db; view := db |}) as [[m|e] s'].
  - done.
  - by injection Hrun as -> ->.
Qed.

Lemma create_film_conflict_witness :
  request (create_film dune) db_two
  = (Raise (HTTPException 409
       "A movie with the name 'Dune' and release date '2025-01-01' already exists."),
     db_two)
  /\ create_movies dune db_two
     = ({| status_code := 409;
           content := detail_json
             "A movie with the name 'Dune' and release date '2025-01-01' already exists." |},
        db_two).
Proof.
  apply (create_film_conflict db_two dune 1
           (MovieModel.Build (Some "Dune") (Some (datetime.Date 739252))
              (Some 85%float) (Some "...") (Some "Released")
              (Some 100%float) (Some 400%float) 1 [1] [1] [1])).
  - vm_compute. reflexivity.
  - reflexivity.
  - reflexivity.
  - intros j r' Hj Hn _.
    assert (movies db_two
            = <[2 := Movie.columns movie_arrival]> {[1 := Movie.columns movie_dune]})
      as Hrows by (vm_compute; reflexivity).
    rewrite Hrows in Hj.
    apply lookup_insert_Some in Hj as [[_ <-]|[_ Hj]]; [discriminate Hn|].
    by apply lookup_singleton_Some in Hj as [<- _].
Defined.

(** C1: the uniqueness check answers a match with 409, as its one-match path
    shows on [db_two], but it reads the match with [scalar_one_or_none]: on
    [db_same], where two rows have the name and date of the input, the lookup
    itself raises and the request ends as a server error, not as a conflict.
    The database [db_same] is reached by two creates and an update that
    renames the second movie; the update makes no uniqueness check. *)
Theorem create_film_two_matches_server_error :
  db_same = foldl perform empty_database
              [POST_movies dune; POST_movies arrival; PATCH_movie 2 (rename "Dune")]
  /\ (exists i j r r', i <> j
     /\ movies db_same !! i = Some r /\ movies db_same !! j = Some r'
     /\ MovieModel.name r = Some (MovieCreateSchema.name dune)
     /\ MovieModel.date r = Some (MovieCreateSchema.date dune)
     /\ MovieModel.name r' = Some (MovieCreateSchema.name dune)
     /\ MovieModel.date r' = Some (MovieCreateSchema.date dune))
  /\ request (create_film dune) db_same = (Raise MultipleResultsFound, db_same)
  /\ create_movies dune db_same
     = ({| status_code := 500; content := plain_text "Internal Server Error" |},
        db_same)
  /\ create_movies dune db_two
     = ({| status_code := 409;
           content := detail_json
             "A movie with the name 'Dune' and release date '2025-01-01' already exists." |},
        db_two)
  /\ ~ (forall db movie_data,
          (exists i r, movies db !! i = Some r
             /\ MovieModel.name r = Some (MovieCreateSchema.name movie_data)
             /\ MovieModel.date r = Some (MovieCreateSchema.date movie_data)) ->
          exists detail,
            request (create_film movie_data) db
            = (Raise (HTTPException 409 detail), db)).
Proof.
  assert (request (create_film dune) db_same = (Raise MultipleResultsFound, db_same))
    as Hrun by (vm_compute; reflexivity).
  split; [vm_compute; reflexivity|]. split.
  { exists 1, 2, (Movie.columns movie_dune),
      (MovieModel.Build (Some "Dune") (Some (datetime.Date 739252))
         (Some 79.5%float) (Some "Twelve ships") (Some "Released")
         (Some 47%float) (Some 203%float) 1 [2; 1] [2; 1] [1; 2]).
    split; [lia|]. split; [vm_compute; reflexivity|].
    split; [vm_compute; reflexivity|]. by repeat split. }
  split; [exact Hrun|]. split; [vm_compute; reflexivity|].
  split; [vm_compute; reflexivity|].
  intros Hall.
  destruct (Hall db_same dune) as [detail Hd].
  { exists 1, (Movie.columns movie_dune). split; [vm_compute; reflexivity|done]. }
  rewrite Hrun in Hd. discriminate Hd.
Qed.

Lemma request_bind_Raise {A B} (m : Coroutine A) (k : A -> Coroutine B)
    (s s' : AsyncSession) (e : exn) :
  m s = (Raise e, s') ->
  (let '(r, s'') := (m ≫= k) s in (r, database s'')) = (Raise e, database s').
Proof. intros Hrun. by erewrite bind_Raise by exact Hrun. Qed.

(** A create either raises and leaves the database as it was, or returns the
    created movie. *)
Lemma create_film_outcome (movie_data : MovieCreateSchema.t) (db : Database) :
  (exists e, request (create_film movie_data) db = (Raise e, db))
  \/ (exists m db', request (create_film movie_data) db = (Ok (Some m), db')
        /\ created movie_data db db' m).
Proof.
  set (s0 := {| database := db; view := db |}).
  destruct (filter (fun r => same_name_date movie_data r = true)
              (map_to_list (movies db))) as [|x0 [|y0 l0]] eqn:E.
  2,3: left; eexists;
    eapply (create_film_raises _ _ _ s0); [|done];
    rewrite name_data_unique_validaton_run; cbn [view s0]; by rewrite E.
  assert (name_data_unique_validaton movie_data s0 = (Ok (), s0)) as Hrun0.
  { rewrite name_data_unique_validaton_run. cbn [view s0]. by rewrite E. }
  unfold request, create_film. fold s0. erewrite bind_Ok by exact Hrun0.
  destruct (mapM_get_or_create_cases (R := GenreModel.t)
              (MovieCreateSchema.genres movie_data) s0)
    as [(e & s' & Hrun1 & Hdb)|(gs & G & Hrun1 & HG)].
  { left. exists e. by rewrite (request_bind_Raise _ _ _ _ _ Hrun1), Hdb. }
  erewrite bind_Ok by exact Hrun1.
  set (s1 := {| database := database s0; view := set_rows G (view s0) |}) in *.
  destruct (mapM_get_or_create_cases (R := ActorModel.t)
              (MovieCreateSchema.actors movie_data) s1)
    as [(e & s' & Hrun2 & Hdb)|(acs & A & Hrun2 & HA)].
  { left. exists e. by rewrite (request_bind_Raise _ _ _ _ _ Hrun2), Hdb. }
  erewrite bind_Ok by exact Hrun2.
  set (s2 := {| database := database s1; view := set_rows A (view s1) |}) in *.
  destruct (mapM_get_or_create_cases (R := LanguageModel.t)
              (MovieCreateSchema.languages movie_data) s2)
    as [(e & s' & Hrun3 & Hdb)|(ls & L & Hrun3 & HL)].
  { left. exists e. by rewrite (request_bind_Raise _ _ _ _ _ Hrun3), Hdb. }
  erewrite bind_Ok by exact Hrun3.
  set (s3 := {| database := database s2; view := set_rows L (view s2) |}) in *.
  destruct (get_or_create_cases (R := CountryModel.t)
              (MovieCreateSchema.country movie_data) s3)
    as [Hrun4|(c & C & Hrun4 & HC)].
  { left. exists MultipleResultsFound.
    by rewrite (request_bind_Raise _ _ _ _ _ Hrun4). }
  erewrite bind_Ok by exact Hrun4.
  right.
  unfold add_flush, commit, refresh, select_where_selectin.
  unfold mbind, Coroutine_bind, mret, Coroutine_ret.
  cbn [view database s0 s1 s2 s3 rows set_rows MovieTable GenreTable ActorTable
       LanguageTable CountryTable movies genres actors languages countries fst snd].
  rewrite select_by_id, lookup_insert_eq. cbn [head fmap list_fmap].
  eexists _, _. split; [reflexivity|].
  exists gs, acs, ls, c. cbn zeta.
  cbn [movies genres actors languages countries].
  done.
Qed.

Lemma create_movies_database (movie_data : MovieCreateSchema.t) (db : Database) :
  (create_movies movie_data db).2 = (request (create_film movie_data) db).2.
Proof.
  unfold create_movies, request, mbind, Coroutine_bind.
  by destruct (create_film movie_data _) as [[m|e] s'].
Qed.

Lemma extends_refl (db : Database) : extends db db.
Proof. unfold extends. split; [|split; [|split]]; apply keeps_refl. Qed.

Lemma extends_trans (db1 db2 db3 : Database) :
  extends db1 db2 -> extends db2 db3 -> extends db1 db3.
Proof.
  intros (? & ? & ? & ?) (? & ? & ? & ?).
  unfold extends. split; [|split; [|split]]; by eapply keeps_trans.
Qed.

Lemma perform_extends (db : Database) (op : operation) : extends db (perform db op).
Proof.
  destruct op as [movie_data|movie_id movie_data|movie_id]; simpl.
  - rewrite create_movies_database.
    destruct (create_film_outcome movie_data db)
      as [[e ->]|(m & db' & -> & Hc)]; simpl; [apply extends_refl|].
    destruct Hc as (gs & acs & ls & c & _ & _ & (? & _) & (? & _)
                    & (? & _) & (? & _)).
    unfold extends. by split; [|split; [|split]].
  - unfold update_movie_endpoint, request, mbind, Coroutine_bind.
    rewrite update_movie_run. cbn [view database].
    destruct (movies db !! movie_id); simpl;
      (unfold extends; split; [|split; [|split]]; apply keeps_refl).
  - unfold delete_movie_endpoint, request. rewrite delete_movie_run.
    cbn [view database].
    destruct (movies db !! movie_id); simpl;
      (unfold extends; split; [|split; [|split]]; apply keeps_refl).
Qed.

Lemma perform_all_extends (ops : list operation) (db : Database) :
  extends db (foldl perform db ops).
Proof.
  revert db. induction ops as [|op ops IH]; intros db; [apply extends_refl|].
  simpl. eapply extends_trans; [apply perform_extends|apply IH].
Qed.

Lemma unique_keys_empty {R} `{NaturalKey R} : unique_keys (∅ : gmap Z R).
Proof. intros i j r r' Hi. by rewrite lookup_empty in Hi. Qed.

(** The natural keys stay unique along every history. *)
Lemma reachable_keys_ok (db : Database) : reachable db -> keys_ok db.
Proof.
  intros [ops ->].
  destruct (perform_all_extends ops empty_database)
    as ((_ & _ & Hg) & (_ & _ & Ha) & (_ & _ & Hl) & (_ & _ & Hc)).
  split; [apply Hg|apply Ha|apply Hl|apply Hc]; apply unique_keys_empty.
Qed.

(** On a database that the operations can reach, a create whose name and
    date no movie has returns the created movie. *)
Lemma create_film_total (movie_data : MovieCreateSchema.t) (db : Database) :
  reachable db ->
  (forall i r, movies db !! i = Some r ->
     ~ (MovieModel.name r = Some (MovieCreateSchema.name movie_data)
        /\ MovieModel.date r = Some (MovieCreateSchema.date movie_data))) ->
  exists m db', request (create_film movie_data) db = (Ok (Some m), db').
Proof.
  intros Hreach Hnone.
  destruct (create_film_succeeds movie_data db (reachable_keys_ok _ Hreach))
    as (gs & acs & ls & c & G & A & L & C & Hrun & _).
  - apply filter_none. intros [i r] Hin Hsame.
    apply elem_of_map_to_list in Hin. apply same_name_date_true in Hsame.
    by apply (Hnone i r).
  - cbn zeta in Hrun. by eexists _, _.
Qed.

Section shared_rows.
Context {R : Type} `{NaturalKey R}.

Lemma omap_related (t : gmap Z R) (ks : list string) (l : list (Z * R)) :
  Forall2 (only_row_for t) ks l -> omap (related t) l.*1 = l.
Proof.
  induction 1 as [|k [i r] ks l [[Hx _] _] _ IH]; [done|].
  rewrite fmap_cons. cbn [omap list_omap]. fold (omap (related t) l.*1).
  unfold related at 1. simpl in *. rewrite Hx. simpl. by rewrite IH.
Qed.

Lemma Forall2_only_row_for_elem (t : gmap Z R) (ks : list string)
    (l : list (Z * R)) (k : string) :
  Forall2 (only_row_for t) ks l -> k ∈ ks -> exists x, x ∈ l /\ only_row_for t k x.
Proof.
  intros Hall [n Hn]%list_elem_of_lookup_1.
  destruct (Forall2_lookup_l _ _ _ _ _ Hall Hn) as (x & Hx & Hrow).
  exists x. split; [by eapply list_elem_of_lookup_2|done].
Qed.

(** Two resolutions of the same natural key, the second against a table that
    keeps what the first one's table had, yield the same row. *)
Lemma shared_row (t1 t2 : gmap Z R) (ks1 ks2 : list string)
    (l1 l2 : list (Z * R)) (k : string) :
  (forall k x, only_row_for t1 k x -> only_row_for t2 k x) ->
  Forall2 (only_row_for t1) ks1 l1 -> Forall2 (only_row_for t2) ks2 l2 ->
  k ∈ ks1 -> k ∈ ks2 ->
  exists x, only_row_for t2 k x
    /\ x ∈ omap (related t1) l1.*1 /\ x ∈ omap (related t2) l2.*1
    /\ x.1 ∈ l1.*1 /\ x.1 ∈ l2.*1.
Proof.
  intros Hkeep H1 H2 Hk1 Hk2.
  destruct (Forall2_only_row_for_elem _ _ _ _ H1 Hk1) as (x1 & Hin1 & Hrow1).
  destruct (Forall2_only_row_for_elem _ _ _ _ H2 Hk2) as (x2 & Hin2 & Hrow2).
  apply Hkeep in Hrow1. destruct Hrow2 as [Hrow2 Honly].
  assert (x1 = x2) as -> by (apply Honly, Hrow1).
  exists x2. split; [done|].
  rewrite (omap_related _ _ _ H1), (omap_related _ _ _ H2).
  repeat split; try done; by apply list_elem_of_fmap_2.
Qed.

End shared_rows.

(** C3: take a create that succeeds, then any further writes, then a second
    create that succeeds.  For every genre, actor or language name that both
    inputs have, and for the country code when they have the same one
    (names and codes compared as they are), the database after the second
    create has exactly one row with that natural key, and both created
    movies reference that row. *)
Theorem create_film_shares_related_rows (db0 db1 db2 : Database)
    (d1 d2 : MovieCreateSchema.t) (m1 m2 : Movie.t) (ops : list operation) :
  request (create_film d1) db0 = (Ok (Some m1), db1) ->
  request (create_film d2) (foldl perform db1 ops) = (Ok (Some m2), db2) ->
  (forall k, k ∈ MovieCreateSchema.genres d1 -> k ∈ MovieCreateSchema.genres d2 ->
     exists x, only_row_for (genres db2) k x
       /\ x ∈ Movie.genres m1 /\ x ∈ Movie.genres m2
       /\ x.1 ∈ MovieModel.genres (Movie.columns m1)
       /\ x.1 ∈ MovieModel.genres (Movie.columns m2))
  /\ (forall k, k ∈ MovieCreateSchema.actors d1 -> k ∈ MovieCreateSchema.actors d2 ->
     exists x, only_row_for (actors db2) k x
       /\ x ∈ Movie.actors m1 /\ x ∈ Movie.actors m2
       /\ x.1 ∈ MovieModel.actors (Movie.columns m1)
       /\ x.1 ∈ MovieModel.actors (Movie.columns m2))
  /\ (forall k, k ∈ MovieCreateSchema.languages d1 ->
                k ∈ MovieCreateSchema.languages d2 ->
     exists x, only_row_for (languages db2) k x
       /\ x ∈ Movie.languages m1 /\ x ∈ Movie.languages m2
       /\ x.1 ∈ MovieModel.languages (Movie.columns m1)
       /\ x.1 ∈ MovieModel.languages (Movie.columns m2))
  /\ (MovieCreateSchema.country d1 = MovieCreateSchema.country d2 ->
     exists x, only_row_for (countries db2) (MovieCreateSchema.country d1) x
       /\ Movie.country m1 = Some x /\ Movie.country m2 = Some x
       /\ MovieModel.country (Movie.columns m1) = x.1
       /\ MovieModel.country (Movie.columns m2) = x.1).
Proof.
  intros Hrun1 Hrun2.
  destruct (create_film_outcome d1 db0) as [[e He]|(m & db' & Hr & Hc1)];
    [congruence|].
  rewrite Hrun1 in Hr. injection Hr as <- <-.
  destruct Hc1 as (gs1 & as1 & ls1 & c1 & -> & _ & (_ & Hg1)
                   & (_ & Ha1) & (_ & Hl1) & (_ & Hc1)).
  destruct (perform_all_extends ops db1)
    as ((_ & Heg & _) & (_ & Hea & _) & (_ & Hel & _) & (_ & Hec & _)).
  destruct (create_film_outcome d2 (foldl perform db1 ops))
    as [[e He]|(m & db' & Hr & Hc2)]; [congruence|].
  rewrite Hrun2 in Hr. injection Hr as <- <-.
  destruct Hc2 as (gs2 & as2 & ls2 & c2 & -> & _ & ((_ & Hkg & _) & Hg2)
                   & ((_ & Hka & _) & Ha2) & ((_ & Hkl & _) & Hl2)
                   & ((_ & Hkc & _) & Hc2)).
  cbn [load_relations Movie.genres Movie.actors Movie.languages Movie.country
       Movie.columns new_row MovieModel.genres MovieModel.actors
       MovieModel.languages MovieModel.country fst snd].
  split; [|split; [|split]].
  - intros k Hk1 Hk2.
    eapply (shared_row (genres db1) (genres db2)); [|done..].
    intros k0 x0 Hx0. by apply Hkg, Heg.
  - intros k Hk1 Hk2.
    eapply (shared_row (actors db1) (actors db2)); [|done..].
    intros k0 x0 Hx0. by apply Hka, Hea.
  - intros k Hk1 Hk2.
    eapply (shared_row (languages db1) (languages db2)); [|done..].
    intros k0 x0 Hx0. by apply Hkl, Hel.
  - intros Hk. rewrite <- Hk in Hc2.
    pose proof (Hkc _ _ (Hec _ _ Hc1)) as Hc1'.
    destruct Hc2 as [Hrow2 Honly].
    assert (c1 = c2) as -> by (apply Honly, Hc1').
    exists c2. split; [done|].
    destruct c2 as [i r]. destruct Hc1 as [[Hc1 _] _]. destruct Hrow2 as [Hc2 _].
    unfold related. simpl in *. by rewrite Hc1, Hc2.
Qed.

Lemma create_film_shares_related_rows_witness :
  (exists x, only_row_for (genres db_two) "Sci-Fi" x
     /\ x ∈ Movie.genres movie_dune /\ x ∈ Movie.genres movie_arrival
     /\ x.1 ∈ MovieModel.genres (Movie.columns movie_dune)
     /\ x.1 ∈ MovieModel.genres (Movie.columns movie_arrival))
  /\ (exists x, only_row_for (countries db_two) "US" x
     /\ Movie.country movie_dune = Some x /\ Movie.country movie_arrival = Some x
     /\ MovieModel.country (Movie.columns movie_dune) = x.1
     /\ MovieModel.country (Movie.columns movie_arrival) = x.1).
Proof.
  destruct (create_film_shares_related_rows empty_database db_dune db_two
              dune arrival movie_dune movie_arrival [])
    as (Hgenres & _ & _ & Hcountry).
  - vm_compute. reflexivity.
  - vm_compute. reflexivity.
  - split.
    + apply Hgenres; simpl; [left|right; left].
    + apply Hcountry. reflexivity.
Defined.

(** Names are compared as they are: a genre that differs in case is a row
    of its own. *)
Example get_or_create_exact_match :
  let lower_case :=
    MovieCreateSchema.Build "Dune Messiah" (datetime.Date 739252) 80%float "..."
      "In Production" 1%float 0%float "US" ["sci-fi"] [] [] in
  map_to_list (genres (request (create_film lower_case) db_dune).2)
  = [(2, GenreModel.Build "sci-fi"); (1, GenreModel.Build "Sci-Fi")].
Proof. vm_compute. reflexivity. Qed.

(** * Further properties of the service *)

(** ** Get by id *)

Lemma get_movie_with_id_request (db : Database) (movie_id : Z) :
  request (get_movie_with_id movie_id) db =
  match movies db !! movie_id with
  | Some r => (Ok (load_relations db (movie_id, r)), db)
  | None =>
      (Raise (HTTPException 404 "Movie with the given ID was not found."), db)
  end.
Proof.
  unfold request. rewrite get_movie_with_id_run. cbn [view database].
  by destruct (movies db !! movie_id).
Qed.

(** X1: a get of an id answers with the row of that key and the related rows
    that it references, however many joined rows the statement yields, or
    with 404 when no row has the key; it never changes the database. *)
Theorem get_movie_with_id_found_or_404 (db : Database) (movie_id : Z) :
  request (get_movie_with_id movie_id) db =
  match movies db !! movie_id with
  | Some r => (Ok (load_relations db (movie_id, r)), db)
  | None =>
      (Raise (HTTPException 404 "Movie with the given ID was not found."), db)
  end.
Proof.
  unfold request. rewrite get_movie_with_id_run. cbn [view database].
  destruct (movies db !! movie_id) as [r|]; reflexivity.
Qed.

(** ** More on update *)

(** A movie row is its seven fields and its relationships. *)
Lemma row_ext (r r' : MovieModel.t) :
  (forall f, getattr r f = getattr r' f) -> relations r = relations r' -> r = r'.
Proof.
  destruct r, r'. intros Hf Hrel.
  pose proof (Hf f_name) as H1. pose proof (Hf f_date) as H2.
  pose proof (Hf f_score) as H3. pose proof (Hf f_overview) as H4.
  pose proof (Hf f_status) as H5. pose proof (Hf f_budget) as H6.
  pose proof (Hf f_revenue) as H7.
  unfold relations in Hrel. simpl in *. congruence.
Qed.

Lemma update_movie_endpoint_run (movie_id : Z) (movie : MovieUpdateSchema.t)
    (db : Database) :
  update_movie_endpoint movie_id movie db =
  match movies db !! movie_id with
  | None =>
      ({| status_code := 404;
          content := detail_json "Movie with the given ID was not found." |}, db)
  | Some r =>
      ({| status_code := 200;
          content := detail_json "Movie updated successfully." |},
       set_rows (<[movie_id := foldl setattr r (model_dump_exclude_unset movie)]>
                   (movies db)) db)
  end.
Proof.
  unfold update_movie_endpoint, request, mbind, Coroutine_bind.
  rewrite update_movie_run. cbn [view database].
  by destruct (movies db !! movie_id).
Qed.

(** X2: the update route answers 404 for an id that no movie has and leaves
    the database as it was; for the id of a movie it answers 200 with
    "Movie updated successfully."; either way the movie table has the same
    ids as before, every other movie row is as it was, and the related
    tables are untouched. *)
Theorem update_movie_endpoint_answers (db : Database) (movie_id : Z)
    (movie : MovieUpdateSchema.t) :
  let '(response, db') := update_movie_endpoint movie_id movie db in
  response
  = match movies db !! movie_id with
    | None => {| status_code := 404;
                 content := detail_json "Movie with the given ID was not found." |}
    | Some _ => {| status_code := 200;
                   content := detail_json "Movie updated successfully." |}
    end
  /\ (movies db !! movie_id = None -> db' = db)
  /\ dom (movies db') = dom (movies db)
  /\ (forall j, j <> movie_id -> movies db' !! j = movies db !! j)
  /\ genres db' = genres db /\ actors db' = actors db
  /\ languages db' = languages db /\ countries db' = countries db.
Proof.
  rewrite update_movie_endpoint_run.
  destruct (movies db !! movie_id) as [r|] eqn:E; [|done].
  cbn [set_rows MovieTable movies genres actors languages countries].
  split; [done|]. split; [done|]. split.
  { apply dom_insert_lookup_L. by rewrite E. }
  split; [|done]. intros j Hj. by rewrite lookup_insert_ne.
Qed.

Lemma foldl_setattr_same (movie : MovieUpdateSchema.t) (r : MovieModel.t) :
  (forall f, f ∈ MovieUpdateSchema.model_fields_set movie ->
     dump_field movie f = getattr r f) ->
  foldl setattr r (model_dump_exclude_unset movie) = r.
Proof.
  intros Hsame. apply row_ext; [|apply relations_foldl_setattr].
  intros f. rewrite getattr_update.
  destruct (decide (f ∈ MovieUpdateSchema.model_fields_set movie)); [by apply Hsame|done].
Qed.

(** X3: an update whose payload supplies no field, or only values that the
    row already has, leaves the whole database as it was. *)
Theorem update_movie_same_values (db : Database) (movie_id : Z)
    (movie : MovieUpdateSchema.t) (r : MovieModel.t) :
  movies db !! movie_id = Some r ->
  (forall f, f ∈ MovieUpdateSchema.model_fields_set movie ->
     dump_field movie f = getattr r f) ->
  update_movie_endpoint movie_id movie db
  = ({| status_code := 200; content := detail_json "Movie updated successfully." |},
     db).
Proof.
  intros Hr Hsame. rewrite update_movie_endpoint_run, Hr.
  rewrite foldl_setattr_same by done.
  f_equal. destruct db. cbn [set_rows MovieTable movies genres actors languages
    countries] in *. f_equal. by apply insert_id.
Qed.

Lemma update_movie_same_values_witness :
  update_movie_endpoint 1 (rename "Dune") db_dune
  = ({| status_code := 200; content := detail_json "Movie updated successfully." |},
     db_dune).
Proof.
  apply (update_movie_same_values db_dune 1 (rename "Dune") (Movie.columns movie_dune)).
  - vm_compute. reflexivity.
  - intros f Hf. simpl in Hf. apply list_elem_of_singleton in Hf as ->. reflexivity.
Defined.

(** X4: an update is idempotent: the same payload sent again gives the same
    answer and changes nothing more. *)
Theorem update_movie_endpoint_idempotent (db : Database) (movie_id : Z)
    (movie : MovieUpdateSchema.t) :
  update_movie_endpoint movie_id movie (update_movie_endpoint movie_id movie db).2
  = update_movie_endpoint movie_id movie db.
Proof.
  rewrite (update_movie_endpoint_run movie_id movie db).
  destruct (movies db !! movie_id) as [r|] eqn:E.
  - cbn [snd]. rewrite update_movie_endpoint_run.
    cbn [set_rows MovieTable movies genres actors languages countries].
    rewrite lookup_insert_eq. f_equal. f_equal.
    rewrite insert_insert_eq. f_equal.
    apply foldl_setattr_same. intros f Hf. by rewrite getattr_update, decide_True.
  - cbn [snd]. by rewrite update_movie_endpoint_run, E.
Qed.

(** ** More on delete *)

Lemma delete_movie_endpoint_run (movie_id : Z) (db : Database) :
  delete_movie_endpoint movie_id db =
  match movies db !! movie_id with
  | None =>
      ({| status_code := 404;
          content := detail_json "Movie with the given ID was not found." |}, db)
  | Some r =>
      ({| status_code := 204; content := empty_body |},
       set_rows (delete movie_id (movies db)) db)
  end.
Proof.
  unfold delete_movie_endpoint, request. rewrite delete_movie_run.
  cbn [view database]. by destruct (movies db !! movie_id).
Qed.

(** X5: after a delete request for an id, whatever it answered, a second
    delete of that id answers 404 and changes nothing, and a get of any
    other id answers as it did before the delete. *)
Theorem delete_movie_endpoint_again (db : Database) (movie_id : Z) :
  let db' := (delete_movie_endpoint movie_id db).2 in
  delete_movie_endpoint movie_id db'
  = ({| status_code := 404;
        content := detail_json "Movie with the given ID was not found." |}, db')
  /\ forall j, j <> movie_id ->
       (request (get_movie_with_id j) db').1 = (request (get_movie_with_id j) db).1.
Proof.
  cbn zeta. rewrite (delete_movie_endpoint_run movie_id db).
  destruct (movies db !! movie_id) as [r|] eqn:E; cbn [snd].
  - split.
    + rewrite delete_movie_endpoint_run.
      cbn [set_rows MovieTable movies]. by rewrite lookup_delete_eq.
    + intros j Hj. rewrite !get_movie_with_id_request.
      cbn [set_rows MovieTable movies]. rewrite lookup_delete_ne by done.
      by destruct (movies db !! j).
  - split; [by rewrite delete_movie_endpoint_run, E|done].
Qed.

(** ** More on get-or-create *)

Section get_or_create_more.
Context {R : Type} `{NaturalKeyLaws R} `{!TableLaws R}.

Lemma elem_of_key_filter (t : gmap Z R) (k : string) (y : Z * R) :
  y ∈ filter (fun r : Z * R => bool_decide (natural_key r.2 = k) = true)
        (map_to_list t)
  <-> row_for t k y.
Proof.
  destruct y as [j r]. unfold row_for. simpl.
  rewrite list_elem_of_filter, bool_decide_eq_true, elem_of_map_to_list. tauto.
Qed.

Lemma only_row_filter (t : gmap Z R) (k : string) (x : Z * R) :
  only_row_for t k x ->
  filter (fun r : Z * R => bool_decide (natural_key r.2 = k) = true) (map_to_list t)
  = [x].
Proof.
  intros [Hx Honly]. apply filter_one.
  - apply NoDup_map_to_list.
  - destruct x. by apply elem_of_map_to_list, Hx.
  - apply bool_decide_eq_true, Hx.
  - intros [j r] Hin Hk. apply Honly. apply elem_of_key_filter.
    apply list_elem_of_filter. by split.
Qed.

(** X6: what [get_or_create] returns is either a row that the table already
    had under that natural key, and then the session is as it was, or a row
    built from the key alone and inserted under a key that was not in use,
    when no row had that natural key.  It never commits. *)
Theorem get_or_create_found_or_inserted (k : string) (s s' : AsyncSession)
    (x : Z * R) :
  get_or_create (R := R) k s = (Ok x, s') ->
  database s' = database s
  /\ ((row_for (rows (view s)) k x /\ s' = s)
      \/ ((forall j r, rows (view s) !! j = Some r -> natural_key r <> k)
          /\ rows (view s) !! x.1 = None /\ x.2 = from_key k
          /\ view s' = set_rows (<[x.1 := x.2]> (rows (view s))) (view s))).
Proof.
  rewrite get_or_create_run.
  destruct (filter _ (map_to_list (rows (view s)))) as [|y [|z l]] eqn:E;
    [| |done].
  - intros [= <- <-]. split; [done|]. right. cbn [fst snd view].
    split; [|split; [apply generate_id_fresh|done]].
    intros j r Hj Hk.
    assert ((j, r) ∈ filter (fun r : Z * R => bool_decide (natural_key r.2 = k) = true)
              (map_to_list (rows (view s)))) as Hin by (by apply elem_of_key_filter).
    rewrite E in Hin. by apply elem_of_nil in Hin.
  - intros [= <- <-]. split; [done|]. left. split; [|done].
    apply elem_of_key_filter. rewrite E. left.
Qed.

(** X7: a second [get_or_create] of the same key returns the same row and
    changes nothing. *)
Theorem get_or_create_again (k : string) (s s' : AsyncSession) (x : Z * R) :
  get_or_create (R := R) k s = (Ok x, s') ->
  get_or_create (R := R) k s' = (Ok x, s').
Proof.
  intros Hrun.
  destruct (get_or_create_cases k s) as [Hraise|(x0 & t' & Hok & _ & Honly)];
    [congruence|].
  rewrite Hrun in Hok. injection Hok as -> ->.
  rewrite get_or_create_run. cbn [view]. rewrite rows_set_rows.
  by rewrite (only_row_filter _ _ _ Honly).
Qed.

(** X8: [get_or_create] raises exactly when two rows of the table have the
    natural key; what it raises is [MultipleResultsFound], and the session is
    as it was. *)
Theorem get_or_create_raises_iff (k : string) (s : AsyncSession) :
  (get_or_create (R := R) k s = (Raise MultipleResultsFound, s)
   <-> exists i j r r',
         i <> j /\ rows (view s) !! i = Some r /\ rows (view s) !! j = Some r'
         /\ natural_key r = k /\ natural_key r' = k)
  /\ (forall e s', get_or_create (R := R) k s = (Raise e, s') ->
        e = MultipleResultsFound /\ s' = s).
Proof.
  rewrite get_or_create_run.
  set (t := rows (view s)).
  pose proof (elem_of_key_filter t k) as Hrow.
  assert (NoDup (filter (fun r : Z * R => bool_decide (natural_key r.2 = k) = true)
                   (map_to_list t))) as Hnd
    by apply NoDup_filter, NoDup_map_to_list.
  destruct (filter _ (map_to_list t)) as [|y [|z l]] eqn:E.
  - split; [|done]. split; [done|].
    intros (i & j & r & r' & _ & Hi & _ & Hk & _).
    assert ((i, r) ∈ []) as Hin by (by apply Hrow). by apply elem_of_nil in Hin.
  - split; [|done]. split; [done|].
    intros (i & j & r & r' & Hne & Hi & Hj & Hk & Hk').
    assert ((i, r) ∈ [y]) as Hin1 by (by apply Hrow).
    assert ((j, r') ∈ [y]) as Hin2 by (by apply Hrow).
    apply list_elem_of_singleton in Hin1, Hin2. congruence.
  - split; [|by intros e s' [= <- <-]]. split; [|done]. intros _.
    destruct (proj1 (Hrow y)) as [Hy Hky]; [left|].
    destruct (proj1 (Hrow z)) as [Hz Hkz]; [right; left|].
    exists y.1, z.1, y.2, z.2. split; [|done].
    intros Heq. apply NoDup_cons in Hnd as [Hnin _]. apply Hnin.
    assert (y = z) as -> by (destruct y, z; simpl in *; subst; congruence).
    left.
Qed.

End get_or_create_more.

Lemma get_or_create_found_or_inserted_witness :
  let s := {| database := db_dune; view := db_dune |} in
  let s' := {| database := db_dune;
               view := set_rows (<[2 := GenreModel.Build "Drama"]> (genres db_dune))
                         db_dune |} in
  let x := (2, GenreModel.Build "Drama") in
  database s' = database s
  /\ ((row_for (rows (R := GenreModel.t) (view s)) "Drama" x /\ s' = s)
      \/ ((forall j r, rows (R := GenreModel.t) (view s) !! j = Some r ->
             natural_key r <> "Drama")
          /\ rows (R := GenreModel.t) (view s) !! x.1 = None
          /\ x.2 = from_key "Drama"
          /\ view s' = set_rows (<[x.1 := x.2]> (rows (view s))) (view s))).
Proof.
  cbn zeta.
  apply (get_or_create_found_or_inserted (R := GenreModel.t) "Drama"
           {| database := db_dune; view := db_dune |}).
  vm_compute. reflexivity.
Defined.

Lemma get_or_create_again_witness :
  get_or_create (R := GenreModel.t) "Sci-Fi" {| database := db_dune; view := db_dune |}
  = (Ok (1, GenreModel.Build "Sci-Fi"), {| database := db_dune; view := db_dune |}).
Proof.
  apply (get_or_create_again (R := GenreModel.t) "Sci-Fi"
           {| database := db_dune; view := db_dune |}).
  vm_compute. reflexivity.
Defined.

Lemma get_or_create_raises_iff_witness :
  get_or_create (R := CountryModel.t) "US"
    {| database := db_two_us; view := db_two_us |}
  = (Raise MultipleResultsFound, {| database := db_two_us; view := db_two_us |}).
Proof.
  apply (get_or_create_raises_iff (R := CountryModel.t) "US"
           {| database := db_two_us; view := db_two_us |}).
  exists 1, 2, (CountryModel.Build "US" None),
    (CountryModel.Build "US" (Some "United States")).
  split; [lia|]. split; [vm_compute; reflexivity|].
  split; [vm_compute; reflexivity|]. split; reflexivity.
Defined.

(** ** More on the uniqueness check *)

(** X9: the uniqueness check passes exactly when no movie row has both the
    name and the date of the input (a row that shares only one of them, or
    has none, does not count), and it never writes. *)
Theorem name_data_unique_validaton_passes_iff (movie_data : MovieCreateSchema.t)
    (s : AsyncSession) :
  (name_data_unique_validaton movie_data s = (Ok (), s)
   <-> forall i r, movies (view s) !! i = Some r ->
         ~ (MovieModel.name r = Some (MovieCreateSchema.name movie_data)
            /\ MovieModel.date r = Some (MovieCreateSchema.date movie_data)))
  /\ (name_data_unique_validaton movie_data s).2 = s.
Proof.
  rewrite name_data_unique_validaton_run.
  set (P := fun r : Z * MovieModel.t => same_name_date movie_data r = true).
  assert (forall i r, (i, r) ∈ filter P (map_to_list (movies (view s)))
            <-> movies (view s) !! i = Some r
                /\ MovieModel.name r = Some (MovieCreateSchema.name movie_data)
                /\ MovieModel.date r = Some (MovieCreateSchema.date movie_data))
    as Hin.
  { intros i r. rewrite list_elem_of_filter, elem_of_map_to_list. unfold P.
    rewrite same_name_date_true. simpl. tauto. }
  destruct (filter P (map_to_list (movies (view s)))) as [|[i r] l] eqn:E.
  - split; [|done]. split; [|done]. intros _ i r Hi Hm.
    assert ((i, r) ∈ []) as H0 by (apply Hin; tauto). by apply elem_of_nil in H0.
  - assert (movies (view s) !! i = Some r
            /\ MovieModel.name r = Some (MovieCreateSchema.name movie_data)
            /\ MovieModel.date r = Some (MovieCreateSchema.date movie_data))
      as (Hi & Hm) by (apply Hin; left).
    split; [|by destruct l]. split.
    + by destruct l.
    + intros Hnone. by destruct (Hnone i r Hi).
Qed.

(** ** More on create *)

Section mapM_raise.
Context {R : Type} `{NaturalKeyLaws R} `{!TableLaws R}.

Lemma mapM_get_or_create_Raise (ks : list string) (s s' : AsyncSession) (e : exn) :
  mapM (get_or_create (R := R)) ks s = (Raise e, s') ->
  e = MultipleResultsFound /\ database s' = database s.
Proof.
  revert s. induction ks as [|k ks IH]; intros s; [done|].
  cbn [mapM].
  destruct (get_or_create_cases k s) as [Hrun1|(x & t1 & Hrun1 & _)].
  { erewrite bind_Raise by exact Hrun1. by intros [= <- <-]. }
  erewrite bind_Ok by exact Hrun1.
  set (s1 := {| database := database s; view := set_rows t1 (view s) |}) in *.
  destruct (mapM (get_or_create (R := R)) ks s1) as [[l|e2] s2] eqn:Hrun2.
  { erewrite bind_Ok by exact Hrun2. done. }
  erewrite bind_Raise by exact Hrun2. intros [= <- <-].
  by apply IH in Hrun2.
Qed.

End mapM_raise.

(** The three ways a create can end. *)
Lemma create_film_ends (movie_data : MovieCreateSchema.t) (db : Database) :
  request (create_film movie_data) db
    = (Raise (HTTPException 409 (conflict_detail movie_data)), db)
  \/ request (create_film movie_data) db = (Raise MultipleResultsFound, db)
  \/ (exists m db', request (create_film movie_data) db = (Ok (Some m), db')
        /\ created movie_data db db' m
        /\ filter (fun r => same_name_date movie_data r = true)
             (map_to_list (movies db)) = []).
Proof.
  set (s0 := {| database := db; view := db |}).
  destruct (filter (fun r => same_name_date movie_data r = true)
              (map_to_list (movies db))) as [|x0 [|y0 l0]] eqn:E.
  2: { left. eapply (create_film_raises _ _ _ s0); [|done].
       rewrite name_data_unique_validaton_run. cbn [view s0]. by rewrite E. }
  2: { right. left. eapply (create_film_raises _ _ _ s0); [|done].
       rewrite name_data_unique_validaton_run. cbn [view s0]. by rewrite E. }
  right.
  destruct (create_film_outcome movie_data db) as [[e He]|(m & db' & Hr & Hc)];
    [|right; by eexists _, _].
  left. rewrite He. f_equal. f_equal.
  revert He. unfold request, create_film. fold s0.
  assert (name_data_unique_validaton movie_data s0 = (Ok (), s0)) as Hrun0.
  { rewrite name_data_unique_validaton_run. cbn [view s0]. by rewrite E. }
  erewrite bind_Ok by exact Hrun0.
  destruct (mapM (get_or_create (R := GenreModel.t))
              (MovieCreateSchema.genres movie_data) s0) as [[gs|e1] s1] eqn:H1.
  2: { erewrite bind_Raise by exact H1. intros [= <- _].
       by apply mapM_get_or_create_Raise in H1 as [-> _]. }
  erewrite bind_Ok by exact H1.
  destruct (mapM (get_or_create (R := ActorModel.t))
              (MovieCreateSchema.actors movie_data) s1) as [[acs|e2] s2] eqn:H2.
  2: { erewrite bind_Raise by exact H2. intros [= <- _].
       by apply mapM_get_or_create_Raise in H2 as [-> _]. }
  erewrite bind_Ok by exact H2.
  destruct (mapM (get_or_create (R := LanguageModel.t))
              (MovieCreateSchema.languages movie_data) s2) as [[ls|e3] s3] eqn:H3.
  2: { erewrite bind_Raise by exact H3. intros [= <- _].
       by apply mapM_get_or_create_Raise in H3 as [-> _]. }
  erewrite bind_Ok by exact H3.
  destruct (get_or_create (R := CountryModel.t)
              (MovieCreateSchema.country movie_data) s3) as [[c|e4] s4] eqn:H4.
  2: { erewrite bind_Raise by exact H4. intros [= <- _].
       destruct (get_or_create_cases (R := CountryModel.t)
                   (MovieCreateSchema.country movie_data) s3)
         as [Hr|(x & t' & Hr & _)]; congruence. }
  erewrite bind_Ok by exact H4.
  unfold add_flush, commit, refresh, select_where_selectin.
  unfold mbind, Coroutine_bind, mret, Coroutine_ret. done.
Qed.

Lemma create_film_Ok (movie_data : MovieCreateSchema.t) (db db' : Database)
    (o : option Movie.t) :
  request (create_film movie_data) db = (Ok o, db') ->
  exists m, o = Some m /\ created movie_data db db' m
    /\ forall i r, movies db !! i = Some r ->
         ~ (MovieModel.name r = Some (MovieCreateSchema.name movie_data)
            /\ MovieModel.date r = Some (MovieCreateSchema.date movie_data)).
Proof.
  intros Hrun.
  destruct (create_film_ends movie_data db)
    as [He|[He|(m & db'' & Hr & Hc & Hnone)]]; [congruence..|].
  rewrite Hrun in Hr. injection Hr as -> ->.
  exists m. split; [done|]. split; [done|].
  intros i r Hi Hm.
  assert ((i, r) ∈ filter (fun r => same_name_date movie_data r = true)
            (map_to_list (movies db))) as Hin.
  { apply list_elem_of_filter. split; [by apply same_name_date_true|].
    by apply elem_of_map_to_list. }
  rewrite Hnone in Hin. by apply elem_of_nil in Hin.
Qed.

Lemma create_film_one_match (db : Database) (movie_data : MovieCreateSchema.t)
    (i : Z) (r : MovieModel.t) :
  movies db !! i = Some r ->
  same_name_date movie_data (i, r) = true ->
  (forall j r', movies db !! j = Some r' ->
     same_name_date movie_data (j, r') = true -> j = i) ->
  request (create_film movie_data) db
  = (Raise (HTTPException 409 (conflict_detail movie_data)), db).
Proof.
  intros Hi Hm Hone.
  eapply (create_film_raises _ _ _ {| database := db; view := db |}); [|done].
  rewrite name_data_unique_validaton_run. cbn [view].
  rewrite (filter_one _ _ (i, r)); [done| | | |].
  - apply NoDup_map_to_list.
  - by apply elem_of_map_to_list.
  - done.
  - intros [j r'] Hj Hm'. apply elem_of_map_to_list in Hj.
    assert (j = i) as -> by (by eapply Hone). congruence.
Qed.

Lemma create_movies_run (movie_data : MovieCreateSchema.t) (db : Database) :
  create_movies movie_data db =
  match request (create_film movie_data) db with
  | (Ok result, db') => ({| status_code := 201; content := movie_json result |}, db')
  | (Raise e, db') => (exception_response e, db')
  end.
Proof.
  unfold create_movies, request, mbind, Coroutine_bind.
  by destruct (create_film movie_data _) as [[m|e] s'].
Qed.

Lemma same_movie_refl (m : Movie.t) : same_movie m m.
Proof. unfold same_movie. by repeat split. Qed.

(** X10: a get of the id of a movie that a create returned finds that movie:
    the same id, the same seven values, the same country and the same
    genres, actors and languages, whatever the order in which the two
    statements load them. *)
Theorem create_film_then_get (movie_data : MovieCreateSchema.t) (db db' : Database)
    (m : Movie.t) :
  request (create_film movie_data) db = (Ok (Some m), db') ->
  exists m',
    request (get_movie_with_id (Movie.id m)) db' = (Ok m', db')
    /\ same_movie m m'.
Proof.
  intros (m0 & [= <-] & Hc & _)%create_film_Ok.
  destruct Hc as (gs & acs & ls & c & -> & Hmovies & _).
  rewrite get_movie_with_id_request. cbn [load_relations Movie.id fst].
  rewrite Hmovies, lookup_insert_eq.
  eexists. split; [reflexivity|]. apply same_movie_refl.
Qed.

Lemma create_film_then_get_witness :
  exists m',
    request (get_movie_with_id (Movie.id movie_arrival)) db_two = (Ok m', db_two)
    /\ same_movie movie_arrival m'.
Proof.
  apply (create_film_then_get arrival db_dune). vm_compute. reflexivity.
Defined.

(** X11: the same input sent again after a create that succeeded is refused
    with 409, and the database stays as the first create left it. *)
Theorem create_film_twice (movie_data : MovieCreateSchema.t) (db db' : Database)
    (m : Movie.t) :
  request (create_film movie_data) db = (Ok (Some m), db') ->
  request (create_film movie_data) db'
    = (Raise (HTTPException 409 (conflict_detail movie_data)), db')
  /\ create_movies movie_data db'
     = ({| status_code := 409;
           content := detail_json (conflict_detail movie_data) |}, db').
Proof.
  intros (m' & [= <-] & Hc & Hnone)%create_film_Ok.
  destruct Hc as (gs & acs & ls & c & -> & Hmovies & _).
  assert (request (create_film movie_data) db'
          = (Raise (HTTPException 409 (conflict_detail movie_data)), db')) as Hrun.
  { eapply (create_film_one_match _ _ (generate_id (movies db))).
    - rewrite Hmovies. apply lookup_insert_eq.
    - apply same_name_date_true. by split.
    - intros j r' Hj Hm. rewrite Hmovies in Hj.
      apply lookup_insert_Some in Hj as [[<- _]|[_ Hj]]; [done|].
      apply same_name_date_true in Hm. by destruct (Hnone j r' Hj). }
  split; [done|]. by rewrite create_movies_run, Hrun.
Qed.

Lemma create_film_twice_witness :
  request (create_film dune) db_dune
    = (Raise (HTTPException 409 (conflict_detail dune)), db_dune)
  /\ create_movies dune db_dune
     = ({| status_code := 409; content := detail_json (conflict_detail dune) |},
        db_dune).
Proof.
  apply (create_film_twice dune empty_database db_dune movie_dune).
  vm_compute. reflexivity.
Defined.

(** X12: a create that succeeds adds one movie row, under an id that no
    movie had, holding the seven values of the input; every other movie row
    is as it was, and the count of movies is one more. *)
Theorem create_film_inserts_one_row (movie_data : MovieCreateSchema.t)
    (db db' : Database) (m : Movie.t) :
  request (create_film movie_data) db = (Ok (Some m), db') ->
  movies db !! Movie.id m = None
  /\ movies db' = <[Movie.id m := Movie.columns m]> (movies db)
  /\ MovieModel.name (Movie.columns m) = Some (MovieCreateSchema.name movie_data)
  /\ MovieModel.date (Movie.columns m) = Some (MovieCreateSchema.date movie_data)
  /\ MovieModel.score (Movie.columns m) = Some (MovieCreateSchema.score movie_data)
  /\ MovieModel.overview (Movie.columns m)
     = Some (MovieCreateSchema.overview movie_data)
  /\ MovieModel.status (Movie.columns m) = Some (MovieCreateSchema.status movie_data)
  /\ MovieModel.budget (Movie.columns m) = Some (MovieCreateSchema.budget movie_data)
  /\ MovieModel.revenue (Movie.columns m)
     = Some (MovieCreateSchema.revenue movie_data)
  /\ (exists n, request get_obj_count db = (Ok n, db)
        /\ request get_obj_count db' = (Ok (n + 1), db')).
Proof.
  intros (m' & [= <-] & Hc & _)%create_film_Ok.
  destruct Hc as (gs & acs & ls & c & -> & Hmovies & _).
  cbn [load_relations Movie.id Movie.columns fst snd new_row MovieModel.name
       MovieModel.date MovieModel.score MovieModel.overview MovieModel.status
       MovieModel.budget MovieModel.revenue].
  split; [apply generate_id_fresh|]. repeat (split; [done|]).
  exists (Z.of_nat (size (movies db))). split; [done|].
  unfold request, get_obj_count, select_count, mbind, Coroutine_bind, mret,
    Coroutine_ret. cbn [view database]. rewrite Hmovies.
  rewrite map_size_insert_None by apply generate_id_fresh.
  do 2 f_equal. lia.
Qed.

Lemma create_film_inserts_one_row_witness :
  movies db_dune !! Movie.id movie_arrival = None
  /\ movies db_two = <[Movie.id movie_arrival := Movie.columns movie_arrival]>
                       (movies db_dune)
  /\ exists n, request get_obj_count db_dune = (Ok n, db_dune)
       /\ request get_obj_count db_two = (Ok (n + 1), db_two).
Proof.
  destruct (create_film_inserts_one_row arrival db_dune db_two movie_arrival)
    as (Hnew & Hrows & _ & _ & _ & _ & _ & _ & _ & Hcount).
  - vm_compute. reflexivity.
  - done.
Defined.

Section related_names.
Context {R : Type} `{NaturalKey R}.

Lemma Forall2_only_row_for_keys (t : gmap Z R) (ks : list string)
    (l : list (Z * R)) :
  Forall2 (only_row_for t) ks l -> (fun x : Z * R => natural_key x.2) <$> l = ks.
Proof.
  induction 1 as [|k x ks l [[_ Hk] _] _ IH]; [done|].
  rewrite fmap_cons. by rewrite IH, Hk.
Qed.

End related_names.

(** X13: the movie that a create returns has the relations of the input and
    no others: a name is the name of one of its genres exactly when the
    input lists it as a genre, likewise for its actors and its languages,
    and the code of its country is the input's. *)
Theorem create_film_relations_as_given (movie_data : MovieCreateSchema.t)
    (db db' : Database) (m : Movie.t) :
  request (create_film movie_data) db = (Ok (Some m), db') ->
  (forall k, k ∈ (fun x => GenreModel.name x.2) <$> Movie.genres m
             <-> k ∈ MovieCreateSchema.genres movie_data)
  /\ (forall k, k ∈ (fun x => ActorModel.name x.2) <$> Movie.actors m
                <-> k ∈ MovieCreateSchema.actors movie_data)
  /\ (forall k, k ∈ (fun x => LanguageModel.name x.2) <$> Movie.languages m
                <-> k ∈ MovieCreateSchema.languages movie_data)
  /\ (fun x => CountryModel.code x.2) <$> Movie.country m
     = Some (MovieCreateSchema.country movie_data).
Proof.
  intros (m' & [= <-] & Hc & _)%create_film_Ok.
  destruct Hc as (gs & acs & ls & c & -> & _ & (_ & Hg) & (_ & Ha) & (_ & Hl)
                  & (_ & [[Hc Hk] _])).
  cbn [load_relations Movie.genres Movie.actors Movie.languages Movie.country
       Movie.columns new_row MovieModel.genres MovieModel.actors
       MovieModel.languages MovieModel.country fst snd].
  rewrite (omap_related _ _ _ Hg), (omap_related _ _ _ Ha), (omap_related _ _ _ Hl).
  assert ((fun x : Z * GenreModel.t => GenreModel.name x.2) <$> gs
          = MovieCreateSchema.genres movie_data) as ->
    by apply (Forall2_only_row_for_keys _ _ _ Hg).
  assert ((fun x : Z * ActorModel.t => ActorModel.name x.2) <$> acs
          = MovieCreateSchema.actors movie_data) as ->
    by apply (Forall2_only_row_for_keys _ _ _ Ha).
  assert ((fun x : Z * LanguageModel.t => LanguageModel.name x.2) <$> ls
          = MovieCreateSchema.languages movie_data) as ->
    by apply (Forall2_only_row_for_keys _ _ _ Hl).
  repeat (split; [done|]).
  unfold related. rewrite Hc. simpl. by rewrite <- Hk.
Qed.

Lemma create_film_relations_as_given_witness :
  ("Drama" ∈ (fun x => GenreModel.name x.2) <$> Movie.genres movie_arrival
   <-> "Drama" ∈ MovieCreateSchema.genres arrival)
  /\ (fun x => CountryModel.code x.2) <$> Movie.country movie_arrival = Some "US".
Proof.
  destruct (create_film_relations_as_given arrival db_dune db_two movie_arrival)
    as (Hg & _ & _ & Hc).
  - vm_compute. reflexivity.
  - split; [apply Hg|exact Hc].
Defined.

(** X14: the create route ends in one of three ways: 201 with the created
    movie, whose row is the one row added; 409 for a name and date that a
    movie already has; or a server error when a lookup found several rows.
    In the last two the database is as it was, whatever had been flushed. *)
Theorem create_movies_answers (movie_data : MovieCreateSchema.t) (db : Database) :
  (exists m db',
     create_movies movie_data db
     = ({| status_code := 201; content := movie_json (Some m) |}, db')
     /\ movies db !! Movie.id m = None
     /\ movies db' = <[Movie.id m := Movie.columns m]> (movies db))
  \/ create_movies movie_data db
     = ({| status_code := 409;
           content := detail_json (conflict_detail movie_data) |}, db)
  \/ create_movies movie_data db
     = ({| status_code := 500; content := plain_text "Internal Server Error" |}, db).
Proof.
  rewrite create_movies_run.
  destruct (create_film_ends movie_data db)
    as [->|[->|(m & db' & -> & Hc & _)]]; [by right; left|by right; right|].
  left. exists m, db'. split; [done|].
  destruct Hc as (gs & acs & ls & c & -> & Hmovies & _).
  cbn [load_relations Movie.id Movie.columns fst snd].
  split; [apply generate_id_fresh|done].
Qed.

(** A lookup that finds two countries ends the create as a server error;
    the genre that was flushed before is not kept. *)
Example create_movies_rolls_back :
  create_movies arrival db_two_us
  = ({| status_code := 500; content := plain_text "Internal Server Error" |},
     db_two_us)
  /\ (mapM (get_or_create (R := GenreModel.t)) (MovieCreateSchema.genres arrival)
        {| database := db_two_us; view := db_two_us |}).2
     = {| database := db_two_us;
          view := set_rows (<[2 := GenreModel.Build "Drama"]> (genres db_two_us))
                    db_two_us |}.
Proof. split; vm_compute; reflexivity. Qed.

(** ** What every history keeps *)

(** X15: however many creates, updates and deletes are made from an empty
    database, no two genre, actor or language rows have the same name and no
    two country rows the same code. *)
Theorem natural_keys_stay_unique (db : Database) :
  reachable db -> keys_ok db.
Proof.
  intros [ops ->].
  destruct (perform_all_extends ops empty_database)
    as ((_ & _ & Hg) & (_ & _ & Ha) & (_ & _ & Hl) & (_ & _ & Hc)).
  split; [apply Hg|apply Ha|apply Hl|apply Hc]; apply unique_keys_empty.
Qed.

Lemma natural_keys_stay_unique_witness : keys_ok db_two.
Proof.
  apply natural_keys_stay_unique.
  exists [POST_movies dune; POST_movies arrival]. vm_compute. reflexivity.
Defined.

(** X16: on a database that the operations reach from an empty one, a create
    whose name and date no movie has is answered with 201 and the created
    movie: no lookup of a related row can fail there. *)
Theorem create_movies_succeeds (movie_data : MovieCreateSchema.t) (db : Database) :
  reachable db ->
  (forall i r, movies db !! i = Some r ->
     ~ (MovieModel.name r = Some (MovieCreateSchema.name movie_data)
        /\ MovieModel.date r = Some (MovieCreateSchema.date movie_data))) ->
  exists m db',
    create_movies movie_data db
    = ({| status_code := 201; content := movie_json (Some m) |}, db').
Proof.
  intros Hreach Hnone.
  destruct (create_film_total movie_data db Hreach Hnone) as (m & db' & Hrun).
  exists m, db'. by rewrite create_movies_run, Hrun.
Qed.

Lemma create_movies_succeeds_witness :
  exists m db',
    create_movies arrival db_dune
    = ({| status_code := 201; content := movie_json (Some m) |}, db').
Proof.
  apply create_movies_succeeds.
  - exists [POST_movies dune]. vm_compute. reflexivity.
  - intros i r Hi [Hn _].
    assert (movies db_dune = {[1 := Movie.columns movie_dune]}) as Hrows
      by (vm_compute; reflexivity).
    rewrite Hrows in Hi. apply lookup_singleton_Some in Hi as [_ <-].
    discriminate Hn.
Defined.

Section rows_present.
Context {R : Type} `{NaturalKey R}.

Lemma Forall2_only_row_for_lookup (t : gmap Z R) (ks : list string)
    (l : list (Z * R)) (i : Z) :
  Forall2 (only_row_for t) ks l -> i ∈ l.*1 -> is_Some (t !! i).
Proof.
  induction 1 as [|k x ks l [[Hx _] _] _ IH]; [by intros ?%elem_of_nil|].
  rewrite fmap_cons. intros [->|Hin]%elem_of_cons; [by eexists|by apply IH].
Qed.

End rows_present.

Lemma omap_related_present {R} (t : gmap Z R) (ids : list Z) :
  (forall i, i ∈ ids -> is_Some (t !! i)) -> (omap (related t) ids).*1 = ids.
Proof.
  induction ids as [|i ids IH]; intros Hall; [done|].
  destruct (Hall i) as [r Hr]; [left|].
  cbn [omap list_omap]. fold (omap (related t) ids).
  unfold related at 1. rewrite Hr. simpl. f_equal.
  apply IH. intros j Hj. apply Hall. by right.
Qed.

Lemma is_Some_weaken {R} (t t' : gmap Z R) (i : Z) :
  t ⊆ t' -> is_Some (t !! i) -> is_Some (t' !! i).
Proof. intros Hsub [r Hr]. exists r. by eapply lookup_weaken. Qed.

Lemma perform_references_ok (db : Database) (op : operation) :
  references_ok db -> references_ok (perform db op).
Proof.
  unfold references_ok.
  intros Hok. destruct op as [movie_data|movie_id movie_data|movie_id]; simpl.
  - rewrite create_movies_database.
    destruct (create_film_ends movie_data db)
      as [->|[->|(m & db' & -> & Hc & _)]]; [done..|]. cbn [snd].
    destruct Hc as (gs & acs & ls & c & _ & Hmovies & ((Hsg & _) & Hg)
                    & ((Hsa & _) & Ha) & ((Hsl & _) & Hl)
                    & ((Hsc & _) & [[Hc _] _])).
    intros i r Hi. rewrite Hmovies in Hi.
    apply lookup_insert_Some in Hi as [[_ <-]|[_ Hi]].
    + cbn [new_row MovieModel.country MovieModel.genres MovieModel.actors
           MovieModel.languages].
      split; [by eexists|].
      split; [|split]; intros x Hx; by eapply Forall2_only_row_for_lookup.
    + destruct (Hok i r Hi) as (H1 & H2 & H3 & H4).
      split; [by eapply is_Some_weaken|].
      split; [|split]; intros x Hx; eapply is_Some_weaken; eauto.
  - rewrite update_movie_endpoint_run.
    destruct (movies db !! movie_id) as [r0|] eqn:E; [|done]. cbn [snd].
    intros i r Hi. cbn [set_rows MovieTable movies genres actors languages
      countries] in *.
    apply lookup_insert_Some in Hi as [[_ <-]|[_ Hi]]; [|by apply (Hok i)].
    pose proof (relations_foldl_setattr (model_dump_exclude_unset movie_data) r0)
      as Hrel.
    unfold relations in Hrel. injection Hrel as -> -> -> ->. by apply (Hok movie_id).
  - rewrite delete_movie_endpoint_run.
    destruct (movies db !! movie_id) as [r0|] eqn:E; [|done]. cbn [snd].
    intros i r Hi. cbn [set_rows MovieTable movies genres actors languages
      countries] in *.
    apply lookup_delete_Some in Hi as [_ Hi]. by apply (Hok i).
Qed.

Lemma reachable_references_ok (db : Database) : reachable db -> references_ok db.
Proof.
  intros [ops ->].
  assert (forall d, references_ok d -> references_ok (foldl perform d ops)) as Hall.
  { induction ops as [|op ops IH]; intros d Hd; [done|].
    simpl. by apply IH, perform_references_ok. }
  apply Hall. intros i r Hi. cbn [empty_database movies] in Hi.
  by rewrite lookup_empty in Hi.
Qed.

(** X17: in every database that creates, updates and deletes reach from an
    empty one, each reference of a movie row finds its related row: a get of
    a movie carries a country, and a genre, an actor and a language for every
    one that the row lists. *)
Theorem loaded_relations_complete (db : Database) (movie_id : Z) (m : Movie.t) :
  reachable db ->
  request (get_movie_with_id movie_id) db = (Ok m, db) ->
  (exists c, Movie.country m = Some c /\ c.1 = MovieModel.country (Movie.columns m))
  /\ (Movie.genres m).*1 = MovieModel.genres (Movie.columns m)
  /\ (Movie.actors m).*1 = MovieModel.actors (Movie.columns m)
  /\ (Movie.languages m).*1 = MovieModel.languages (Movie.columns m).
Proof.
  intros Hreach%reachable_references_ok. rewrite get_movie_with_id_request.
  destruct (movies db !! movie_id) as [r|] eqn:E; [|done].
  intros [= <-]. destruct (Hreach movie_id r E) as ([c Hc] & Hg & Ha & Hl).
  cbn [load_relations Movie.country Movie.genres Movie.actors Movie.languages
       Movie.columns fst snd].
  split.
  - exists (MovieModel.country r, c). unfold related. by rewrite Hc.
  - by rewrite !omap_related_present.
Qed.

Lemma loaded_relations_complete_witness :
  (exists c, Movie.country movie_arrival = Some c
     /\ c.1 = MovieModel.country (Movie.columns movie_arrival))
  /\ (Movie.genres movie_arrival).*1 = MovieModel.genres (Movie.columns movie_arrival)
  /\ (Movie.actors movie_arrival).*1 = MovieModel.actors (Movie.columns movie_arrival)
  /\ (Movie.languages movie_arrival).*1
     = MovieModel.languages (Movie.columns movie_arrival).
Proof.
  apply (loaded_relations_complete db_two 2).
  - exists [POST_movies dune; POST_movies arrival]. vm_compute. reflexivity.
  - vm_compute. reflexivity.
Defined.

(** ** More on the list *)

Lemma page_movies_fetched (db : Database) (per_page page : Z) :
  1 <= per_page ->
  page_movies db per_page page
  = load_relations db <$>
      offset_limit ((page - 1) * per_page) per_page (movies_desc db).
Proof.
  intros Hpp. unfold page_movies, request. rewrite get_movies_run. cbn zeta.
  cbn [view database]. rewrite bool_decide_eq_false_2 by lia.
  by destruct (offset_limit ((page - 1) * per_page) per_page (movies_desc db)).
Qed.

Lemma concat_pages {A B} (f : A -> B) (l : list A) (pp n : nat) :
  concat ((fun i => f <$> take pp (drop (i * pp) l)) <$> seq 0 n)
  = f <$> take (n * pp) l.
Proof.
  induction n as [|n IH]; [done|].
  rewrite seq_S, fmap_app, concat_app, IH. simpl.
  rewrite app_nil_r, <- fmap_app, take_take_drop. do 2 f_equal. lia.
Qed.

(** X18: the pages 1 to total_pages of the list, one after the other, are
    all the movies of the store by descending id, each exactly once. *)
Theorem get_movies_pages_cover (db : Database) (per_page : Z) :
  1 <= per_page ->
  let total_pages := (Z.of_nat (size (movies db)) + per_page - 1) `div` per_page in
  concat (page_movies db per_page <$> page_numbers total_pages)
  = load_relations db <$> movies_desc db.
Proof.
  intros Hpp total_pages. unfold page_numbers.
  rewrite <- fmap_S_seq, <- !list_fmap_compose.
  rewrite (list_fmap_ext _
    (fun i => load_relations db <$>
       take (Z.to_nat per_page) (drop (i * Z.to_nat per_page) (movies_desc db)))).
  - rewrite concat_pages, take_ge; [done|].
    rewrite movies_desc_length.
    pose proof (Z.div_mod (Z.of_nat (size (movies db)) + per_page - 1) per_page) as Hdm.
    pose proof (Z.mod_pos_bound (Z.of_nat (size (movies db)) + per_page - 1) per_page)
      as Hb.
    fold total_pages in Hdm. nia.
  - intros _ i _. simpl. rewrite page_movies_fetched by done.
    unfold offset_limit. do 3 f_equal. nia.
Qed.

Lemma get_movies_pages_cover_witness :
  concat (page_movies db_two 1 <$> page_numbers 2) = [movie_arrival; movie_dune]
  /\ load_relations db_two <$> movies_desc db_two = [movie_arrival; movie_dune].
Proof.
  assert (load_relations db_two <$> movies_desc db_two = [movie_arrival; movie_dune])
    as Hall by (vm_compute; reflexivity).
  split; [|done]. rewrite <- Hall.
  apply (get_movies_pages_cover db_two 1). lia.
Defined.

(** X19: a page of the list holds exactly per_page movies, except the last
    one, which holds what is left: the length of a result is the smaller of
    per_page and total_items - (page - 1) * per_page. *)
Theorem get_movies_page_length (db db' : Database) (page per_page : Z)
    (r : MoviePage.t) :
  1 <= page -> 1 <= per_page ->
  request (get_movies page per_page) db = (Ok r, db') ->
  Z.of_nat (length (MoviePage.movies r))
  = Z.min per_page (MoviePage.total_items r - (page - 1) * per_page)
  /\ (page < MoviePage.total_pages r ->
      Z.of_nat (length (MoviePage.movies r)) = per_page).
Proof.
  intros Hpage Hpp Hrun. apply get_movies_Ok in Hrun as (_ & _ & Hne & ->).
  cbn [MoviePage.movies MoviePage.total_items MoviePage.total_pages].
  assert (0 <= (page - 1) * per_page) as Hoff by nia.
  assert ((page - 1) * per_page < Z.of_nat (size (movies db))) as Hlt.
  { destruct (decide ((page - 1) * per_page < Z.of_nat (size (movies db))));
      [done|].
    exfalso. apply Hne. apply offset_limit_nil; [lia..|].
    rewrite movies_desc_length. lia. }
  unfold offset_limit.
  rewrite length_fmap, length_take, length_drop, movies_desc_length.
  set (n := size (movies db)) in *. set (off := (page - 1) * per_page) in *.
  split; [lia|]. intros Hpages.
  assert (off + per_page <= Z.of_nat n); [|lia].
  pose proof (Z.div_mod (Z.of_nat n + per_page - 1) per_page) as Hdm.
  pose proof (Z.mod_pos_bound (Z.of_nat n + per_page - 1) per_page) as Hb.
  unfold off. nia.
Qed.

Lemma get_movies_page_length_witness :
  Z.of_nat (length (MoviePage.movies second_page))
  = Z.min 1 (MoviePage.total_items second_page - (2 - 1) * 1)
  /\ (2 < MoviePage.total_pages second_page ->
      Z.of_nat (length (MoviePage.movies second_page)) = 1).
Proof.
  apply (get_movies_page_length db_two db_two 2 1 second_page); [lia|lia|].
  vm_compute. reflexivity.
Defined.

(** X20: every movie of a list result is found by a get of its id: the same
    id, the same seven values, the same country and the same genres, actors
    and languages, whatever the order in which the two statements load
    them. *)
Theorem get_movies_agrees_with_get (db db' : Database) (page per_page : Z)
    (r : MoviePage.t) (m : Movie.t) :
  request (get_movies page per_page) db = (Ok r, db') ->
  m ∈ MoviePage.movies r ->
  exists m',
    request (get_movie_with_id (Movie.id m)) db = (Ok m', db)
    /\ same_movie m m'.
Proof.
  intros Hrun Hm. apply get_movies_Ok in Hrun as (_ & _ & _ & ->).
  cbn [MoviePage.movies] in Hm.
  apply list_elem_of_fmap in Hm as ([i row] & -> & Hin).
  pose proof (elem_of_sublist _ _ _ Hin (offset_limit_sublist _ _ _)) as Hin'.
  rewrite (movies_desc_Permutation db) in Hin'.
  apply elem_of_map_to_list in Hin'.
  rewrite get_movie_with_id_request. cbn [load_relations Movie.id fst].
  rewrite Hin'. eexists. split; [reflexivity|]. apply same_movie_refl.
Qed.

Lemma get_movies_agrees_with_get_witness :
  exists m',
    request (get_movie_with_id (Movie.id movie_dune)) db_two = (Ok m', db_two)
    /\ same_movie movie_dune m'.
Proof.
  apply (get_movies_agrees_with_get db_two db_two 2 1 second_page).
  - vm_compute. reflexivity.
  - simpl. left.
Defined.





(** X22: a get after an update returns the movie with the fields of the
    payload set and the others as the get before returned them, and with the
    same country, genres, actors and languages. *)
Theorem update_movie_then_get (db : Database) (movie_id : Z)
    (movie : MovieUpdateSchema.t) (m : Movie.t) :
  request (get_movie_with_id movie_id) db = (Ok m, db) ->
  let db' := (update_movie_endpoint movie_id movie db).2 in
  exists m',
    request (get_movie_with_id movie_id) db' = (Ok m', db')
    /\ Movie.id m' = Movie.id m
    /\ (forall f, getattr (Movie.columns m') f
          = if decide (f ∈ MovieUpdateSchema.model_fields_set movie)
            then dump_field movie f else getattr (Movie.columns m) f)
    /\ Movie.country m' = Movie.country m
    /\ Movie.genres m' = Movie.genres m
    /\ Movie.actors m' = Movie.actors m
    /\ Movie.languages m' = Movie.languages m.
Proof.
  rewrite get_movie_with_id_request.
  destruct (movies db !! movie_id) as [r|] eqn:E; [|done].
  intros [= <-]. cbn zeta. rewrite update_movie_endpoint_run, E. cbn [snd].
  rewrite get_movie_with_id_request.
  cbn [set_rows MovieTable movies]. rewrite lookup_insert_eq.
  eexists. split; [reflexivity|].
  pose proof (relations_foldl_setattr (model_dump_exclude_unset movie) r) as Hrel.
  unfold relations in Hrel. injection Hrel as Hc Hg Ha Hl.
  cbn [load_relations Movie.id Movie.columns Movie.country Movie.genres
       Movie.actors Movie.languages fst snd genres actors languages countries].
  rewrite Hc, Hg, Ha, Hl. split; [done|]. split; [|done].
  intros f. apply getattr_update.
Qed.

Lemma update_movie_then_get_witness :
  let db' := (update_movie_endpoint 1 (rename "Dune: Part One") db_dune).2 in
  exists m',
    request (get_movie_with_id 1) db' = (Ok m', db')
    /\ MovieModel.name (Movie.columns m') = Some "Dune: Part One"
    /\ Movie.genres m' = Movie.genres movie_dune.
Proof.
  destruct (update_movie_then_get db_dune 1 (rename "Dune: Part One") movie_dune)
    as (m' & Hget & _ & Hf & _ & Hg & _).
  - vm_compute. reflexivity.
  - exists m'. split; [exact Hget|]. split; [|exact Hg].
    specialize (Hf f_name). rewrite decide_True in Hf by (simpl; left).
    simpl in Hf. by injection Hf.
Defined.

(** X23: a movie that was deleted is on no page of the list. *)
Theorem deleted_movie_not_listed (db db'' : Database) (movie_id page per_page : Z)
    (r : MoviePage.t) (m : Movie.t) :
  let db' := (delete_movie_endpoint movie_id db).2 in
  request (get_movies page per_page) db' = (Ok r, db'') ->
  m ∈ MoviePage.movies r ->
  Movie.id m <> movie_id.
Proof.
  intros db' Hrun Hm Heq.
  pose proof (get_movies_Ok _ _ _ _ _ Hrun) as (_ & _ & _ & ->).
  cbn [MoviePage.movies] in Hm.
  apply list_elem_of_fmap in Hm as ([i row] & -> & Hin).
  pose proof (elem_of_sublist _ _ _ Hin (offset_limit_sublist _ _ _)) as Hin'.
  rewrite (movies_desc_Permutation db') in Hin'.
  apply elem_of_map_to_list in Hin'. cbn [load_relations Movie.id fst] in Heq.
  subst i. revert Hin'. unfold db'. rewrite delete_movie_endpoint_run.
  destruct (movies db !! movie_id) as [r0|] eqn:E; cbn [snd]; [|congruence].
  cbn [set_rows MovieTable movies]. by rewrite lookup_delete_eq.
Qed.

Lemma deleted_movie_not_listed_witness :
  Movie.id movie_dune <> 2.
Proof.
  apply (deleted_movie_not_listed db_two ((delete_movie_endpoint 2 db_two).2) 2 1 10
           (MoviePage.Build [movie_dune] None None 1 1) movie_dune).
  - vm_compute. reflexivity.
  - simpl. left.
Defined.

(** X24: the check before the insert keeps the pairs of name and date
    distinct: when no two movies share both, none do after a create request
    or a delete request, whatever these answer. *)
Theorem name_date_unique_kept (db : Database) (movie_data : MovieCreateSchema.t)
    (movie_id : Z) :
  name_date_unique db ->
  name_date_unique (create_movies movie_data db).2
  /\ name_date_unique (delete_movie_endpoint movie_id db).2.
Proof.
  unfold name_date_unique. intros Huniq. split.
  - rewrite create_movies_database.
    destruct (create_film_ends movie_data db)
      as [->|[->|(m & db' & Hrun & _)]]; [done..|].
    rewrite Hrun. cbn [snd].
    apply create_film_Ok in Hrun as (m' & [= <-] & Hc & Hnone).
    destruct Hc as (gs & acs & ls & c & _ & Hmovies & _).
    intros i j r r' name date Hi Hj Hn Hd Hn' Hd'. rewrite Hmovies in Hi, Hj.
    apply lookup_insert_Some in Hi as [[<- <-]|[_ Hi]];
      apply lookup_insert_Some in Hj as [[<- <-]|[_ Hj]]; [done| | |by eauto].
    + cbn [new_row MovieModel.name MovieModel.date] in Hn, Hd.
      destruct (Hnone j r' Hj). split; congruence.
    + cbn [new_row MovieModel.name MovieModel.date] in Hn', Hd'.
      destruct (Hnone i r Hi). split; congruence.
  - rewrite delete_movie_endpoint_run.
    destruct (movies db !! movie_id) as [r0|] eqn:E; cbn [snd]; [|done].
    cbn [set_rows MovieTable movies].
    intros i j r r' name date [_ Hi]%lookup_delete_Some [_ Hj]%lookup_delete_Some.
    by eauto.
Qed.

Lemma name_date_unique_kept_witness :
  name_date_unique (create_movies arrival db_dune).2
  /\ name_date_unique (delete_movie_endpoint 1 db_dune).2.
Proof.
  apply name_date_unique_kept.
  intros i j r r' name date Hi Hj _ _ _ _.
  assert (movies db_dune = {[1 := Movie.columns movie_dune]}) as Hrows
    by (vm_compute; reflexivity).
  rewrite Hrows in Hi, Hj.
  apply lookup_singleton_Some in Hi as [<- _].
  by apply lookup_singleton_Some in Hj as [<- _].
Defined.

(** ** Writes to different movies *)

Lemma perform_PATCH (db : Database) (i : Z) (p : MovieUpdateSchema.t) :
  perform db (PATCH_movie i p)
  = match movies db !! i with
    | None => db
    | Some r =>
        set_rows (<[i := foldl setattr r (model_dump_exclude_unset p)]> (movies db)) db
    end.
Proof.
  simpl. rewrite update_movie_endpoint_run. by destruct (movies db !! i).
Qed.

Lemma perform_DELETE (db : Database) (i : Z) :
  perform db (DELETE_movie i)
  = match movies db !! i with
    | None => db
    | Some r => set_rows (delete i (movies db)) db
    end.
Proof.
  simpl. rewrite delete_movie_endpoint_run. by destruct (movies db !! i).
Qed.

(** X25: updates and deletes of two different movies do not interfere: in
    either order they leave the same database. *)
Theorem writes_to_different_movies_commute (db : Database) (i j : Z)
    (p q : MovieUpdateSchema.t) :
  i <> j ->
  perform (perform db (PATCH_movie i p)) (PATCH_movie j q)
    = perform (perform db (PATCH_movie j q)) (PATCH_movie i p)
  /\ perform (perform db (DELETE_movie i)) (DELETE_movie j)
     = perform (perform db (DELETE_movie j)) (DELETE_movie i)
  /\ perform (perform db (PATCH_movie i p)) (DELETE_movie j)
     = perform (perform db (DELETE_movie j)) (PATCH_movie i p).
Proof.
  intros Hne. rewrite !perform_PATCH, !perform_DELETE.
  destruct (movies db !! i) as [ri|] eqn:Ei; destruct (movies db !! j) as [rj|] eqn:Ej;
    cbn [set_rows MovieTable movies genres actors languages countries];
    rewrite ?lookup_insert_ne, ?lookup_delete_ne, ?Ei, ?Ej by done;
    cbn [set_rows MovieTable movies genres actors languages countries];
    repeat split; try done; f_equal.
  - by apply insert_insert_ne.
  - apply delete_delete.
  - by apply delete_insert_ne.
Qed.

Lemma writes_to_different_movies_commute_witness :
  perform (perform db_two (PATCH_movie 1 date_null)) (DELETE_movie 2)
  = perform (perform db_two (DELETE_movie 2)) (PATCH_movie 1 date_null).
Proof.
  apply (writes_to_different_movies_commute db_two 1 2 date_null date_null). lia.
Defined.

(** ** The list after an update *)

Lemma elem_of_keys {R} (m : gmap Z R) (i : Z) :
  i ∈ (map_to_list m).*1 <-> i ∈ dom m.
Proof.
  rewrite elem_of_dom, list_elem_of_fmap. split.
  - intros ([j r] & -> & Hin). apply elem_of_map_to_list in Hin. by eexists.
  - intros [r Hr]. exists (i, r). split; [done|by apply elem_of_map_to_list].
Qed.

Lemma movies_desc_ids (d d' : Database) :
  dom (movies d') = dom (movies d) -> (movies_desc d').*1 = (movies_desc d).*1.
Proof.
  intros Hdom.
  apply (StronglySorted_unique_strong (fun a b : Z => b < a));
    [intros; lia|apply movies_desc_sorted..|].
  rewrite (movies_desc_Permutation d'), (movies_desc_Permutation d).
  apply NoDup_Permutation; [apply NoDup_fst_map_to_list..|].
  intros i. by rewrite !elem_of_keys, Hdom.
Qed.

(** X26: an update moves no movie to another page: for every page and page
    size, the ids on the page after an update request are the ids that were
    on it before. *)
Theorem update_keeps_pages (db : Database) (movie_id : Z)
    (movie : MovieUpdateSchema.t) (per_page page : Z) :
  1 <= per_page ->
  Movie.id <$> page_movies (update_movie_endpoint movie_id movie db).2 per_page page
  = Movie.id <$> page_movies db per_page page.
Proof.
  intros Hpp. rewrite !page_movies_fetched by done.
  rewrite <- !list_fmap_compose.
  change (Movie.id ∘ load_relations (update_movie_endpoint movie_id movie db).2)
    with (fst : Z * MovieModel.t -> Z).
  change (Movie.id ∘ load_relations db) with (fst : Z * MovieModel.t -> Z).
  unfold offset_limit. rewrite !fmap_take, !fmap_drop. do 2 f_equal.
  apply movies_desc_ids.
  pose proof (update_movie_endpoint_run movie_id movie db) as Hrun.
  destruct (movies db !! movie_id) as [r|] eqn:E; rewrite Hrun; cbn [snd]; [|done].
  cbn [set_rows MovieTable movies]. apply dom_insert_lookup_L. by rewrite E.
Qed.

Lemma update_keeps_pages_witness :
  Movie.id <$> page_movies (update_movie_endpoint 1 date_null db_two).2 1 2
  = Movie.id <$> page_movies db_two 1 2.
Proof. apply update_keeps_pages. lia. Defined.
